(** * GD32E230G8 target support: flash-controller protocol and flash algorithm

    A shallow embedding of [pyocd/target/builtin/target_GD32E230G8.py]:
    the module constants, the [FLASH_ALGO] descriptor and the memory map,
    and the methods [is_locked], [_flash_unlock], [_option_unlock],
    [_option_erase] and [mass_erase] of class [GD32E230G8].

    The methods talk to a debug target through inherited memory-access
    primitives; here they run in a small monad over an abstract target
    interface and record every bus access, sleep, log call and collaborator
    call as an event. *)

From Stdlib Require Import ZArith QArith List String Bool Lia Lqa.
Import ListNotations.

Local Open Scope Z_scope.

(** ** Module-level constants *)

Definition FMC_KEY    : Z := 0x40022004.
Definition FMC_OBKEY  : Z := 0x40022008.
Definition FMC_STAT   : Z := 0x4002200C.
Definition FMC_CTL    : Z := 0x40022010.
Definition FMC_OBSTAT : Z := 0x4002201C.

Definition OBPG  : Z := Z.shiftl 1 4.
Definition OBER  : Z := Z.shiftl 1 5.
Definition START : Z := Z.shiftl 1 6.
Definition OBWEN : Z := Z.shiftl 1 9.

Definition BUSY : Z := Z.shiftl 1 0.

Definition KEY1 : Z := 0x45670123.
Definition KEY2 : Z := 0xCDEF89AB.

Definition FLASH_ERASE_TIMEOUT : Q := 10.

(** Literal addresses used by [mass_erase]: the read-protection halfword and
    the user-option halfword of the option-byte block. *)
Definition OB_SPC_ADDR  : Z := 0x1FFFF800.
Definition OB_USER_ADDR : Z := 0x1FFFF802.

(** ** The flash algorithm descriptor *)

Record flash_algo := {
  load_address : Z;
  instructions : list Z;
  pc_init : Z;
  pc_unInit : Z;
  pc_program_page : Z;
  pc_erase_sector : Z;
  pc_eraseAll : Z;
  static_base : Z;
  begin_stack : Z;
  end_stack : Z;
  begin_data : Z;
  page_size : Z;
  analyzer_supported : bool;
  analyzer_address : Z;
  page_buffers : list Z;
  min_program_length : Z;
  ro_start : Z;
  ro_size : Z;
  rw_start : Z;
  rw_size : Z;
  zi_start : Z;
  zi_size : Z;
  flash_start : Z;
  flash_size : Z;
  sector_sizes : list (Z * Z)
}.

Definition FLASH_ALGO : flash_algo := {|
  load_address := 0x20000000;
  instructions := [
    0xe7fdbe00;
    0xb086b5b0; 0x460c4613; 0x90054605; 0x92039104; 0x49129805; 0x49124008; 0x5050464a; 0xf2484811;
    0x60010100; 0x49114810; 0x49116001; 0x48116001; 0x21046800; 0x93024208; 0x95009401; 0xe7ffd10a;
    0x490e480d; 0x480e6001; 0x60012106; 0x490e480d; 0xe7ff6001; 0xb0062000; 0x46c0bdb0; 0xfffe0000;
    0x00000004; 0x40022000; 0x40022004; 0x45670123; 0xcdef89ab; 0x4002201c; 0x40003000; 0x00005555;
    0x40003004; 0x40003008; 0x00000fff; 0x4601b082; 0x48049001; 0x23806802; 0x6002431a; 0x91002000;
    0x4770b002; 0x40022010; 0x6801480d; 0x43112204; 0x68016001; 0x43112240; 0xe7ff6001; 0x68004809;
    0x42082101; 0xe7ffd004; 0x49084807; 0xe7f56001; 0x68014803; 0x43912204; 0x20006001; 0x46c04770;
    0x40022010; 0x4002200c; 0x40003000; 0x0000aaaa; 0x4601b082; 0x48109001; 0x23026802; 0x6002431a;
    0x4b0e9a01; 0x6802601a; 0x431a2340; 0x91006002; 0x480be7ff; 0x21016800; 0xd0044208; 0x4809e7ff;
    0x60014909; 0x4804e7f5; 0x22026801; 0x60014391; 0xb0022000; 0x46c04770; 0x40022010; 0x40022014;
    0x4002200c; 0x40003000; 0x0000aaaa; 0xb08ab5b0; 0x460c4613; 0x90084605; 0x92069107; 0x90042000;
    0x99079806; 0x90031840; 0x7800a807; 0x28000740; 0x94019302; 0xd0079500; 0x9807e7ff; 0x40082107;
    0x1a082108; 0xe7ff9004; 0x90052000; 0x9805e7ff; 0x42889904; 0xe7ffd20a; 0x1c419803; 0x21ff9103;
    0xe7ff7001; 0x1c409805; 0xe7f09005; 0x1dc09807; 0x43882107; 0x98089007; 0x464a4923; 0x22015851;
    0x18890452; 0xd2384288; 0xe7ffe7ff; 0x28009807; 0xe7ffd032; 0x6801481d; 0x43112201; 0x98066001;
    0x99086800; 0x98066008; 0x99086840; 0xe7ff6048; 0x68004817; 0x42082101; 0xe7ffd001; 0x4813e7f8;
    0x22016801; 0x60014391; 0x68004811; 0x42082114; 0xe7ffd008; 0x6801480e; 0x43112214; 0x20016001;
    0xe00d9009; 0x30089808; 0x98069008; 0x90063008; 0x38089807; 0xe7c99007; 0x2000e7ff; 0xe7ff9009;
    0xb00a9809; 0x46c0bdb0; 0x00000004; 0x40022010; 0x4002200c; 0x00000000; 0x00000000
  ];
  pc_init := 0x20000005;
  pc_unInit := 0x20000091;
  pc_program_page := 0x20000151;
  pc_erase_sector := 0x200000f5;
  pc_eraseAll := 0x200000ad;
  static_base := 0x20000000 + 0x00000004 + 0x00000254;
  begin_stack := 0x20001a60;
  end_stack := 0x20000a60;
  begin_data := 0x20000000 + 0x1000;
  page_size := 0x400;
  analyzer_supported := false;
  analyzer_address := 0x00000000;
  page_buffers := [0x20000260; 0x20000660];
  min_program_length := 0x400;
  ro_start := 0x4;
  ro_size := 0x254;
  rw_start := 0x258;
  rw_size := 0x4;
  zi_start := 0x25c;
  zi_size := 0x4;
  flash_start := 0x8000000;
  flash_size := 0x10000;
  sector_sizes := [(0x0, 0x400)]
|}.

(** ** The memory map *)

Inductive region :=
| FlashRegion (start length blocksize : Z) (is_boot_memory : bool) (algo : flash_algo)
| RamRegion (start length : Z).

Definition region_start (r : region) : Z :=
  match r with
  | FlashRegion s _ _ _ _ => s
  | RamRegion s _ => s
  end.

Definition region_length (r : region) : Z :=
  match r with
  | FlashRegion _ l _ _ _ => l
  | RamRegion _ l => l
  end.

(** One past the last address of the region. *)
Definition region_limit (r : region) : Z := region_start r + region_length r.

Definition FLASH_REGION : region :=
  FlashRegion 0x08000000 0x10000 0x400 true FLASH_ALGO.

Definition RAM_REGION : region := RamRegion 0x20000000 0x2000.

Definition MEMORY_MAP : list region := [FLASH_REGION; RAM_REGION].

(** *** Reading the descriptor *)

(** The instruction payload is a list of 32-bit words written verbatim at
    the load address: its footprint is four bytes per word. *)
Definition footprint_size (a : flash_algo) : Z :=
  4 * Z.of_nat (List.length (instructions a)).

Definition in_footprint (a : flash_algo) (x : Z) : bool :=
  (load_address a <=? x) && (x <? load_address a + footprint_size a).

Definition strictly_inside (r : region) (x : Z) : bool :=
  (region_start r <? x) && (x <? region_limit r).

Definition inside (r : region) (x : Z) : bool :=
  (region_start r <=? x) && (x <? region_limit r).

(** Modelled from the spec: the consumer of the sector map (the flashing
    orchestrator) is not among the sources.  The spec reads an entry
    [(offset, size)] of the map as one sector of [size] bytes repeated from
    [offset] on, up to the next entry's offset or, for the last entry, to the
    end of the flash region.  [sectors_between size lo hi] lists the sizes of
    the sectors laid out from [lo] while they start below [hi]. *)
Definition sectors_between (size lo hi : Z) : list Z :=
  if size <=? 0 then []
  else List.repeat size (Z.to_nat ((hi - lo + size - 1) / size)).

(** Modelled from the spec: the expansion of the whole sector map over a
    flash region of [len] bytes (see [sectors_between]). *)
Fixpoint expand_sector_map (m : list (Z * Z)) (len : Z) : list Z :=
  match m with
  | [] => []
  | (off, size) :: rest =>
      let hi := match rest with
                | [] => len
                | (next, _) :: _ => next
                end in
      sectors_between size off hi ++ expand_sector_map rest len
  end.

Definition sum_Z (l : list Z) : Z := List.fold_right Z.add 0 l.

(** The byte range [[lo, lo + len)] of a page buffer. *)
Definition buffer_limit (a : flash_algo) (buf : Z) : Z := buf + page_size a.

Definition ranges_disjoint (lo1 hi1 lo2 hi2 : Z) : bool :=
  (hi1 <=? lo2) || (hi2 <=? lo1).

(** ** Values, exceptions and collaborators *)

(** The Python values the methods return. *)
Inductive pyval :=
| PyNone
| PyBool (b : bool).

(** Truth value of a Python value, as tested by [if] and [not]. *)
Definition truthy (v : pyval) : bool :=
  match v with
  | PyNone => false
  | PyBool b => b
  end.

(** Exceptions: [exceptions.TargetError] raised by this module, and whatever
    the chip-erase collaborator raises. *)
Inductive exn :=
| TargetError (msg : string)
| CollaboratorError (what : string).

(** Modelled from the spec: the generic chip-erase collaborator [FlashEraser]
    is imported from [pyocd.flash.eraser], which is not among the sources.
    The spec describes it as a whole-device erase operation invocable with a
    chip mode and a flag that suppresses its own completion logging; the flag
    is on unless cleared. *)
Inductive Mode := CHIP | OTHER_MODE.

Record FlashEraser := {
  eraser_mode : Mode;
  _log_chip_erase : bool
}.

Definition FlashEraser_new (mode : Mode) : FlashEraser :=
  {| eraser_mode := mode; _log_chip_erase := true |}.

Definition set_log_chip_erase (e : FlashEraser) (b : bool) : FlashEraser :=
  {| eraser_mode := eraser_mode e; _log_chip_erase := b |}.

(** ** Events *)

(** What a method does to the outside world, in program order. *)
Inductive event :=
| Read16 (addr value : Z)
| Read32 (addr value : Z)
| Write16 (addr value : Z)
| Write32 (addr value : Z)
| Sleep (duration : Q)
| LogError (fmt : string) (args : list string)
| EraserErase (e : FlashEraser).

(** ** The target interface *)

(** The primitives inherited from [CoreSightTarget] and imported from
    [time], over a world [W] that holds the device and the clock.  Reads may
    change the world (hardware progresses); [eraser_erase] is the
    collaborator's [erase()], which may raise. *)
Class Target (W : Type) := {
  target_read16 : Z -> W -> Z * W;
  target_read32 : Z -> W -> Z * W;
  target_write16 : Z -> Z -> W -> W;
  target_write32 : Z -> Z -> W -> W;
  target_part_number : W -> string;
  clock_time : W -> Q;
  clock_sleep : Q -> W -> W;
  eraser_erase : FlashEraser -> W -> option exn * W
}.

(** What the busy-poll bound needs of the clock: a status read never moves
    it backwards, and [sleep d] moves it forward by at least [d]. *)
Class ClockLaws (W : Type) `{Target W} : Prop := {
  read32_clock : forall a w,
    (clock_time w <= clock_time (snd (target_read32 a w)))%Q;
  sleep_clock : forall d w,
    (clock_time w + d <= clock_time (clock_sleep d w))%Q
}.

(** ** The execution monad *)

Inductive outcome (A : Type) :=
| Done (a : A)
| Raised (e : exn)
| OutOfFuel.

Arguments Done {A} a.
Arguments Raised {A} e.
Arguments OutOfFuel {A}.

(** A computation maps a world to its outcome, the new world and the events
    it emitted. *)
Definition M (W A : Type) : Type := W -> outcome A * W * list event.

Definition ret {W A} (a : A) : M W A := fun w => (Done a, w, []).

Definition bind {W A B} (m : M W A) (k : A -> M W B) : M W B :=
  fun w =>
    match m w with
    | (Done a, w1, t1) =>
        match k a w1 with
        | (r, w2, t2) => (r, w2, t1 ++ t2)
        end
    | (Raised e, w1, t1) => (Raised e, w1, t1)
    | (OutOfFuel, w1, t1) => (OutOfFuel, w1, t1)
    end.

Definition raise {W A} (e : exn) : M W A := fun w => (Raised e, w, []).

Declare Scope m_scope.
Delimit Scope m_scope with m.
Notation "x <- c1 ;; c2" := (bind c1 (fun x => c2))
  (at level 61, c1 at next level, right associativity) : m_scope.
Notation "c1 ;; c2" := (bind c1 (fun _ => c2))
  (at level 61, right associativity) : m_scope.

Definition result {W A} (r : outcome A * W * list event) : outcome A := fst (fst r).
Definition final {W A} (r : outcome A * W * list event) : W := snd (fst r).
Definition trace {W A} (r : outcome A * W * list event) : list event := snd r.

(** Modelled from the spec: the scoped bounded-timeout utility [Timeout] is
    imported from [pyocd.utility.timeout], which is not among the sources.
    The spec describes it as a deadline fixed once on entry to the scope and
    a check-until-expired predicate: the check holds until the timeout has
    elapsed.  Time is kept in exact rationals. *)
Record Timeout := {
  _timeout : Q;
  _start : Q
}.

Definition elapsed (to : Timeout) (now : Q) : Q := (now - _start to)%Q.

Definition expired (to : Timeout) (now : Q) : bool :=
  Qle_bool (_timeout to) (elapsed to now).

(** Exit of a [while ... else] loop: by [break], or by its condition turning
    false, in which case the [else] suite runs. *)
Inductive loop_exit := Break | Exhausted.

Section Methods.

Context {W : Type} `{Target W}.

Local Open Scope m_scope.

Definition read16 (addr : Z) : M W Z :=
  fun w => let (v, w') := target_read16 addr w in (Done v, w', [Read16 addr v]).

Definition read32 (addr : Z) : M W Z :=
  fun w => let (v, w') := target_read32 addr w in (Done v, w', [Read32 addr v]).

Definition write16 (addr value : Z) : M W unit :=
  fun w => (Done tt, target_write16 addr value w, [Write16 addr value]).

Definition write32 (addr value : Z) : M W unit :=
  fun w => (Done tt, target_write32 addr value w, [Write32 addr value]).

Definition sleep (d : Q) : M W unit :=
  fun w => (Done tt, clock_sleep d w, [Sleep d]).

Definition LOG_error (fmt : string) (args : list string) : M W unit :=
  fun w => (Done tt, w, [LogError fmt args]).

Definition part_number : M W string :=
  fun w => (Done (target_part_number w), w, []).

Definition FlashEraser_erase (e : FlashEraser) : M W unit :=
  fun w =>
    match eraser_erase e w with
    | (None, w') => (Done tt, w', [EraserErase e])
    | (Some x, w') => (Raised x, w', [EraserErase e])
    end.

(** Modelled from the spec: entering the [Timeout] scope fixes the start
    time, once. *)
Definition Timeout_enter (timeout : Q) : M W Timeout :=
  fun w => (Done {| _timeout := timeout; _start := clock_time w |}, w, []).

(** Modelled from the spec: [to.check()] holds until the timeout has
    elapsed. *)
Definition Timeout_check (to : Timeout) : M W bool :=
  fun w => (Done (negb (expired to (clock_time w))), w, []).

(** *** class GD32E230G8 *)

Definition is_locked : M W pyval :=
  status <- read32 FMC_OBSTAT ;;
  ret (PyBool (negb (Z.land status 0x2 =? 0))).

Definition _flash_unlock : M W pyval :=
  write32 FMC_KEY KEY1 ;;
  write32 FMC_KEY KEY2 ;;
  ret PyNone.

Definition _option_unlock : M W pyval :=
  _flash_unlock ;;
  write32 FMC_OBKEY KEY1 ;;
  write32 FMC_OBKEY KEY2 ;;
  ret PyNone.

(** The busy-poll loop that [_option_erase] and [mass_erase] both contain:
<<
    while to.check():
        status = self.read32(FMC_STAT)
        if (status & BUSY) == 0:
            break
        sleep(0.1)
>>
    The result says how the loop was left; the [else] suites differ and stay
    with the callers.  [fuel] bounds the number of iterations. *)
Fixpoint busy_poll (fuel : nat) (to : Timeout) : M W loop_exit :=
  match fuel with
  | O => fun w => (OutOfFuel, w, [])
  | S fuel' =>
      go <- Timeout_check to ;;
      if go then
        status <- read32 FMC_STAT ;;
        if Z.land status BUSY =? 0 then ret Break
        else sleep 0.1 ;; busy_poll fuel' to
      else ret Exhausted
  end.

Definition _option_erase (fuel : nat) : M W pyval :=
  _option_unlock ;;
  write32 FMC_CTL (Z.lor OBER OBWEN) ;;
  write32 FMC_CTL (Z.lor (Z.lor OBER OBWEN) START) ;;
  to <- Timeout_enter FLASH_ERASE_TIMEOUT ;;
  ex <- busy_poll fuel to ;;
  match ex with
  | Break => ret (PyBool true)
  | Exhausted =>
      LOG_error "Option byte erase timeout" [] ;;
      ret (PyBool false)
  end.

Definition mass_erase (fuel : nat) : M W pyval :=
  locked <- is_locked ;;
  if truthy locked then
    ob_user <- read16 0x1FFFF802 ;;
    ok <- _option_erase fuel ;;
    (if negb (truthy ok) then
       pn <- part_number ;;
       LOG_error "%s: option byte unlock fail" [pn] ;;
       raise (TargetError "unable to unlock device")
     else ret tt) ;;
    _option_unlock ;;
    write32 FMC_CTL (Z.lor OBPG OBWEN) ;;
    write16 0x1FFFF800 0x5AA5 ;;
    write16 0x1FFFF802 ob_user ;;
    to <- Timeout_enter FLASH_ERASE_TIMEOUT ;;
    ex <- busy_poll fuel to ;;
    match ex with
    | Break => ret PyNone
    | Exhausted =>
        pn <- part_number ;;
        LOG_error "%s: mass erase failed" [pn] ;;
        raise (TargetError "unable to unlock device")
    end
  else
    let eraser := FlashEraser_new CHIP in
    let eraser := set_log_chip_erase eraser false in
    FlashEraser_erase eraser ;;
    ret PyNone.

End Methods.

(** ** Observing traces *)

Definition is_write (e : event) : bool :=
  match e with
  | Write16 _ _ | Write32 _ _ => true
  | _ => false
  end.

(** The address of a bus access. *)
Definition event_addr (e : event) : option Z :=
  match e with
  | Read16 a _ | Read32 a _ | Write16 a _ | Write32 a _ => Some a
  | _ => None
  end.

Definition touches (a : Z) (e : event) : bool :=
  match event_addr e with
  | Some x => x =? a
  | None => false
  end.

(** Values written to address [a], in program order. *)
Definition writes_to (a : Z) (tr : list event) : list Z :=
  flat_map (fun e => match e with
                     | Write16 x v | Write32 x v => if x =? a then [v] else []
                     | _ => []
                     end) tr.

(** Values read from address [a], in program order. *)
Definition reads_from (a : Z) (tr : list event) : list Z :=
  flat_map (fun e => match e with
                     | Read16 x v | Read32 x v => if x =? a then [v] else []
                     | _ => []
                     end) tr.

(** The registers and option-byte halfwords of the unlock protocol. *)
Definition option_byte_registers : list Z :=
  [FMC_KEY; FMC_OBKEY; FMC_STAT; FMC_CTL; FMC_OBSTAT; OB_SPC_ADDR; OB_USER_ADDR].

Definition touches_any (regs : list Z) (e : event) : bool :=
  existsb (fun a => touches a e) regs.

Definition busy_set (status : Z) : bool := negb (Z.land status BUSY =? 0).

(** One round of the busy-poll loop that found the controller busy. *)
Definition busy_round (status : Z) : list event :=
  [Read32 FMC_STAT status; Sleep 0.1].

(** The events of a whole busy-poll: the rounds that read busy, then the
    read that found the busy bit clear, if there was one. *)
Definition poll_shape (busy : list Z) (last : option Z) : list event :=
  flat_map busy_round busy ++
  match last with
  | Some s => [Read32 FMC_STAT s]
  | None => []
  end.

Definition exit_of (last : option Z) : loop_exit :=
  match last with
  | Some _ => Break
  | None => Exhausted
  end.

(** The four key writes of [_option_unlock]. *)
Definition unlock_writes : list event :=
  [Write32 FMC_KEY KEY1; Write32 FMC_KEY KEY2;
   Write32 FMC_OBKEY KEY1; Write32 FMC_OBKEY KEY2].

(** ** A byte-addressed store, to replay writes on *)

Definition store := Z -> Z.

Definition load8 (m : store) (a : Z) : Z := m a mod 256.

Definition load16 (m : store) (a : Z) : Z :=
  load8 m a + 256 * load8 m (a + 1).

Definition load32 (m : store) (a : Z) : Z :=
  load16 m a + 65536 * load16 m (a + 2).

Definition store8 (a v : Z) (m : store) : store :=
  fun x => if x =? a then v mod 256 else m x.

Definition store16 (a v : Z) (m : store) : store :=
  store8 (a + 1) (v / 256) (store8 a v m).

Definition store32 (a v : Z) (m : store) : store :=
  store16 (a + 2) (v / 65536) (store16 a v m).

Definition apply_write (m : store) (e : event) : store :=
  match e with
  | Write16 a v => store16 a v m
  | Write32 a v => store32 a v m
  | _ => m
  end.

(** The store after the writes of a trace, little-endian, in order. *)
Definition replay (tr : list event) (m : store) : store :=
  fold_left apply_write tr m.

(** [clear_of a e]: the event [e] writes to neither byte of the halfword
    at [a]. *)
Definition clear_of (a : Z) (e : event) : bool :=
  match e with
  | Write16 x _ => (x + 1 <? a) || (a + 1 <? x)
  | Write32 x _ => (x + 3 <? a) || (a + 1 <? x)
  | _ => true
  end.

(** ** A simulated target *)

(** Memory is a byte store; reads of the status register are scripted
    ([sim_stat], then [sim_stat_rest] for ever); only [sleep] moves the
    clock; the chip-erase collaborator reports [sim_eraser]. *)
Record sim := {
  sim_mem : store;
  sim_stat : list Z;
  sim_stat_rest : Z;
  sim_now : Q;
  sim_part : string;
  sim_eraser : option exn
}.

Definition sim_with_mem (m : store) (s : sim) : sim :=
  {| sim_mem := m; sim_stat := sim_stat s; sim_stat_rest := sim_stat_rest s;
     sim_now := sim_now s; sim_part := sim_part s; sim_eraser := sim_eraser s |}.

Definition sim_read32 (a : Z) (s : sim) : Z * sim :=
  if a =? FMC_STAT then
    match sim_stat s with
    | [] => (sim_stat_rest s, s)
    | v :: rest =>
        (v, {| sim_mem := sim_mem s; sim_stat := rest;
               sim_stat_rest := sim_stat_rest s; sim_now := sim_now s;
               sim_part := sim_part s; sim_eraser := sim_eraser s |})
    end
  else (load32 (sim_mem s) a, s).

Definition sim_sleep (d : Q) (s : sim) : sim :=
  {| sim_mem := sim_mem s; sim_stat := sim_stat s;
     sim_stat_rest := sim_stat_rest s; sim_now := (sim_now s + d)%Q;
     sim_part := sim_part s; sim_eraser := sim_eraser s |}.

#[export] Instance sim_target : Target sim := {|
  target_read16 := fun a s => (load16 (sim_mem s) a, s);
  target_read32 := sim_read32;
  target_write16 := fun a v s => sim_with_mem (store16 a v (sim_mem s)) s;
  target_write32 := fun a v s => sim_with_mem (store32 a v (sim_mem s)) s;
  target_part_number := sim_part;
  clock_time := sim_now;
  clock_sleep := sim_sleep;
  eraser_erase := fun _ s => (sim_eraser s, s)
|}.

(** A device whose option-byte-status register reads [obstat], whose
    user-option halfword reads [user], and whose status register reads the
    scripted values. *)
Definition sim_device (obstat user : Z) (stat : list Z) (rest : Z) : sim :=
  {| sim_mem := store16 0x1FFFF802 user (store32 FMC_OBSTAT obstat (fun _ => 0));
     sim_stat := stat;
     sim_stat_rest := rest;
     sim_now := 0;
     sim_part := "gd32e230g8";
     sim_eraser := None |}.

(** Three devices: a locked one whose controller goes idle after a few
    polls, a locked one that stays busy for ever, and one that is not
    locked. *)
Definition sim_recovering : sim := sim_device 0x02 0xABCD [1; 0; 1; 1; 0] 0.
Definition sim_stuck : sim := sim_device 0x02 0xABCD [] 1.
Definition sim_open : sim := sim_device 0xFFFFFFFD 0xABCD [] 0.

(** ** Bookkeeping for the busy-poll bound *)

(** The time that [n] sleeps of the poll interval take at least. *)
Fixpoint budget (n : nat) : Q :=
  match n with
  | O => 0
  | S k => budget k + 0.1
  end.

(** The number of status reads in a trace. *)
Definition status_reads (tr : list event) : nat :=
  List.length (reads_from FMC_STAT tr).

(** The [Timeout] object that entering the scope in world [w] yields. *)
Definition timeout_at {W : Type} `{Target W} (w : W) : Timeout :=
  {| _timeout := FLASH_ERASE_TIMEOUT; _start := clock_time w |}.

(** The two control-register writes that start the option-byte erase. *)
Definition erase_triggers : list event :=
  [Write32 FMC_CTL (Z.lor OBER OBWEN);
   Write32 FMC_CTL (Z.lor (Z.lor OBER OBWEN) START)].

(** The world in which the poll of [_option_erase] starts. *)
Definition erase_entry {W : Type} `{Target W} (w : W) : W :=
  target_write32 FMC_CTL (Z.lor (Z.lor OBER OBWEN) START)
    (target_write32 FMC_CTL (Z.lor OBER OBWEN)
       (final (_option_unlock w))).

(** The writes of the programming step of [mass_erase], after its second
    unlock: program mode, the magic halfword, the saved user halfword. *)
Definition program_writes (ob_user : Z) : list event :=
  [Write32 FMC_CTL (Z.lor OBPG OBWEN);
   Write16 0x1FFFF800 0x5AA5;
   Write16 0x1FFFF802 ob_user].

(** The world in which the final poll of [mass_erase] starts. *)
Definition program_entry {W : Type} `{Target W} (ob_user : Z) (w : W) : W :=
  target_write16 0x1FFFF802 ob_user
    (target_write16 0x1FFFF800 0x5AA5
       (target_write32 FMC_CTL (Z.lor OBPG OBWEN)
          (final (_option_unlock w)))).

(** The status value of the closing read of a poll, as a list. *)
Definition closing_read (last : option Z) : list Z :=
  match last with
  | Some s => [s]
  | None => []
  end.

(** *** Shapes of whole runs *)

Definition found_clear (last : option Z) : bool :=
  match last with
  | Some _ => true
  | None => false
  end.

(** The events of [_option_erase] whose poll read [busy] and then [last]. *)
Definition erase_trace (busy : list Z) (last : option Z) : list event :=
  unlock_writes ++ erase_triggers ++ poll_shape busy last ++
  (if found_clear last then []
   else [LogError "Option byte erase timeout" []]).

(** The events of the programming step of [mass_erase]. *)
Definition program_trace (ob_user : Z) (pn : string)
    (busy : list Z) (last : option Z) : list event :=
  unlock_writes ++ program_writes ob_user ++ poll_shape busy last ++
  (if found_clear last then []
   else [LogError "%s: mass erase failed" [pn]]).

(** The events of [mass_erase] on the locked branch: the lock query, the
    read of the user halfword, the option-byte erase and then either the
    failure log or the programming step. *)
Definition locked_trace (st ob_user : Z) (pn : string)
    (busy1 : list Z) (last1 : option Z)
    (busy2 : list Z) (last2 : option Z) : list event :=
  [Read32 FMC_OBSTAT st; Read16 0x1FFFF802 ob_user] ++
  erase_trace busy1 last1 ++
  (if found_clear last1 then program_trace ob_user pn busy2 last2
   else [LogError "%s: option byte unlock fail" [pn]]).

Definition locked_result (last1 last2 : option Z) : outcome pyval :=
  if found_clear last1 && found_clear last2 then Done PyNone
  else Raised (TargetError "unable to unlock device").

(** A poll as the trace shows it: every round in [busy] read the busy bit
    set, the closing read (if any) read it clear, and there were at most
    [n] status reads. *)
Definition poll_ok (n : nat) (busy : list Z) (last : option Z) : Prop :=
  Forall (fun s => Z.testbit s 0 = true) busy
  /\ (forall s, last = Some s -> Z.testbit s 0 = false)
  /\ (status_reads (poll_shape busy last) <= n)%nat.

(** ** Further observations on traces *)

(** The time a trace asks to sleep, in all. *)
Definition total_sleep (tr : list event) : Q :=
  fold_right (fun e acc => match e with
                           | Sleep d => (d + acc)%Q
                           | _ => acc
                           end) 0%Q tr.

Definition is_eraser_call (e : event) : bool :=
  match e with
  | EraserErase _ => true
  | _ => false
  end.

(** The accesses the module makes: 32-bit reads of the option-byte-status
    and status registers, a 16-bit read of the user halfword, 32-bit writes
    of the two key registers and the control register, 16-bit writes of the
    two option halfwords, sleeps of the poll interval, log calls, and the
    collaborator in chip mode with its logging off. *)
Definition allowed_access (e : event) : bool :=
  match e with
  | Read32 a _ => (a =? FMC_OBSTAT) || (a =? FMC_STAT)
  | Read16 a _ => a =? 0x1FFFF802
  | Write32 a _ => (a =? FMC_KEY) || (a =? FMC_OBKEY) || (a =? FMC_CTL)
  | Write16 a _ => (a =? 0x1FFFF800) || (a =? 0x1FFFF802)
  | Sleep d => Qeq_bool d 0.1
  | LogError _ _ => true
  | EraserErase e =>
      match eraser_mode e with
      | CHIP => negb (_log_chip_erase e)
      | OTHER_MODE => false
      end
  end.

(** After the lock query and the read of the user halfword: neither a
    further access to the option-byte-status register nor a call of the
    collaborator. *)
Definition no_requery (e : event) : bool :=
  negb (touches FMC_OBSTAT e) && negb (is_eraser_call e).

(** A locked device whose controller is idle at every status read. *)
Definition sim_idle : sim := sim_device 0x02 0xABCD [0; 0] 0.

(** A target halted with its busy bit set: every read returns 3, writes
    are lost, the clock stands still and [sleep] returns at once. *)
Inductive halted := Halted.

#[export] Instance halted_target : Target halted := {|
  target_read16 := fun _ h => (3, h);
  target_read32 := fun _ h => (3, h);
  target_write16 := fun _ _ h => h;
  target_write32 := fun _ _ h => h;
  target_part_number := fun _ => "halted"%string;
  clock_time := fun _ => 0%Q;
  clock_sleep := fun _ h => h;
  eraser_erase := fun _ h => (None, h)
|}.

(** ** The poll, round by round *)

Section PollRounds.

Context {W : Type} `{Target W}.

(** The world in which the loop condition is next tested after a round
    that started in [w] and read the controller busy: after the status read
    and the sleep. *)
Definition next_round (w : W) : W :=
  clock_sleep 0.1 (snd (target_read32 FMC_STAT w)).

(** The world at the [k]-th test of the loop condition, counted from 0, if
    every earlier round read busy. *)
Fixpoint poll_world (k : nat) (w : W) : W :=
  match k with
  | O => w
  | S k' => poll_world k' (next_round w)
  end.

(** The status values the device returns in the first [k] rounds. *)
Fixpoint poll_statuses (k : nat) (w : W) : list Z :=
  match k with
  | O => []
  | S k' => fst (target_read32 FMC_STAT w) :: poll_statuses k' (next_round w)
  end.

(** In each of the first [k] rounds the timeout had not expired and the
    device returned a status with the busy bit set. *)
Fixpoint rounds_busy (to : Timeout) (k : nat) (w : W) : bool :=
  match k with
  | O => true
  | S k' =>
      negb (expired to (clock_time w))
      && Z.testbit (fst (target_read32 FMC_STAT w)) 0
      && rounds_busy to k' (next_round w)
  end.

End PollRounds.

(** * Properties *)

(** ** Bit tests *)

Lemma testbit_pow2 (k n : Z) :
  0 <= k -> Z.testbit (Z.shiftl 1 k) n = (k =? n).
Proof.
  intros Hk. rewrite Z.shiftl_1_l.
  apply Z.pow2_bits_eqb. assumption.
Qed.

Lemma land_pow2_zero (s k : Z) :
  0 <= k -> (Z.land s (Z.shiftl 1 k) =? 0) = negb (Z.testbit s k).
Proof.
  intros Hk. destruct (Z.testbit s k) eqn:Hb; simpl.
  - apply Z.eqb_neq. intros Hz.
    assert (Hl : Z.testbit (Z.land s (Z.shiftl 1 k)) k = true).
    { rewrite Z.land_spec, Hb, testbit_pow2, Z.eqb_refl by assumption.
      reflexivity. }
    rewrite Hz, Z.bits_0 in Hl. discriminate.
  - apply Z.eqb_eq. apply Z.bits_inj'. intros n _.
    rewrite Z.land_spec, Z.bits_0, testbit_pow2 by assumption.
    destruct (Z.eqb_spec k n) as [->|_].
    + rewrite Hb. reflexivity.
    + apply andb_false_r.
Qed.

Lemma busy_set_bit0 (s : Z) : busy_set s = Z.testbit s 0.
Proof.
  unfold busy_set, BUSY. rewrite land_pow2_zero by lia.
  apply negb_involutive.
Qed.

Lemma locked_bit1 (s : Z) : negb (Z.land s 0x2 =? 0) = Z.testbit s 1.
Proof.
  change 0x2 with (Z.shiftl 1 1). rewrite land_pow2_zero by lia.
  apply negb_involutive.
Qed.

(** ** The descriptor *)

(** Closed facts about the descriptor are settled by evaluation; a goal
    under a binder is left alone. *)
Ltac closed_goal :=
  match goal with
  | |- Forall _ _ =>
      repeat (apply Forall_cons; [vm_compute; reflexivity|]); apply Forall_nil
  | |- forall _, _ => idtac
  | |- _ = _ => vm_compute; reflexivity
  | |- (_ <= _)%Z => vm_compute; discriminate
  | |- (_ < _)%Z => vm_compute; reflexivity
  end.

(** C7: the descriptor is consistent with the memory map.  The sector map,
    read as 0x400-byte sectors repeated over the flash region, has sizes
    that sum to the flash region length 0x10000; both page buffers lie
    strictly between the RAM bounds 0x20000000 and 0x20002000; the
    static-data base lies within the footprint of the instructions loaded at
    the load address. *)
Theorem flash_algo_consistent :
  let sectors :=
    expand_sector_map (sector_sizes FLASH_ALGO) (flash_size FLASH_ALGO) in
  sectors = List.repeat 0x400 64
  /\ sum_Z sectors = region_length FLASH_REGION
  /\ region_length FLASH_REGION = 0x10000
  /\ flash_size FLASH_ALGO = 0x10000
  /\ page_buffers FLASH_ALGO = [0x20000260; 0x20000660]
  /\ region_start RAM_REGION = 0x20000000
  /\ region_limit RAM_REGION = 0x20002000
  /\ Forall (fun b => strictly_inside RAM_REGION b = true) (page_buffers FLASH_ALGO)
  /\ load_address FLASH_ALGO <= static_base FLASH_ALGO
       < load_address FLASH_ALGO + footprint_size FLASH_ALGO
  /\ in_footprint FLASH_ALGO (static_base FLASH_ALGO) = true.
Proof.
  cbv zeta.
  repeat match goal with |- _ /\ _ => split end; closed_goal.
Qed.

(** C9: the two page buffers, each [page_size] = 0x400 bytes from 0x20000260
    and 0x20000660, are disjoint, end at or below [end_stack] = 0x20000a60,
    share no address with the stack region [[end_stack, begin_stack]] =
    [[0x20000a60, 0x20001a60]], and all these addresses lie in the RAM region
    [[0x20000000, 0x20002000)]. *)
Theorem page_buffers_layout :
  let a := FLASH_ALGO in
  let b1 := 0x20000260 in
  let b2 := 0x20000660 in
  page_buffers a = [b1; b2]
  /\ page_size a = 0x400
  /\ end_stack a = 0x20000a60
  /\ begin_stack a = 0x20001a60
  /\ ranges_disjoint b1 (buffer_limit a b1) b2 (buffer_limit a b2) = true
  /\ buffer_limit a b1 <= end_stack a
  /\ buffer_limit a b2 <= end_stack a
  /\ (forall x, (b1 <= x < buffer_limit a b1 \/ b2 <= x < buffer_limit a b2) ->
                ~ (end_stack a <= x <= begin_stack a))
  /\ region_start RAM_REGION = 0x20000000
  /\ region_limit RAM_REGION = 0x20002000
  /\ Forall (fun x => inside RAM_REGION x = true)
       [b1; buffer_limit a b1 - 1; b2; buffer_limit a b2 - 1;
        end_stack a; begin_stack a].
Proof.
  cbv zeta.
  repeat match goal with |- _ /\ _ => split end; closed_goal.
  intros x Hx Hs. revert Hx Hs.
  unfold buffer_limit. simpl page_size. simpl end_stack. simpl begin_stack.
  lia.
Qed.

(** ** The query and the unlock sequences *)

Section MethodFacts.

Context {W : Type} `{Target W}.

Lemma is_locked_eq (w w' : W) (v : Z) :
  target_read32 FMC_OBSTAT w = (v, w') ->
  is_locked w = (Done (PyBool (Z.testbit v 1)), w', [Read32 FMC_OBSTAT v]).
Proof.
  intros Hr. unfold is_locked, bind, read32, ret. rewrite Hr. simpl.
  rewrite locked_bit1. reflexivity.
Qed.

Lemma flash_unlock_eq (w : W) :
  _flash_unlock w =
  (Done PyNone,
   target_write32 FMC_KEY KEY2 (target_write32 FMC_KEY KEY1 w),
   [Write32 FMC_KEY KEY1; Write32 FMC_KEY KEY2]).
Proof. reflexivity. Qed.

Lemma option_unlock_eq (w : W) :
  _option_unlock w =
  (Done PyNone,
   target_write32 FMC_OBKEY KEY2
     (target_write32 FMC_OBKEY KEY1 (final (_flash_unlock w))),
   unlock_writes).
Proof. reflexivity. Qed.

End MethodFacts.

(** C4: [is_locked] reads the option-byte-status register once and returns
    true exactly when bit 1 of the value read is set, whatever the other
    bits; its only event is that read, so it writes nothing.  On devices
    whose register holds 0x02, 0x00 and 0xFFFFFFFD it returns true, false
    and false. *)
Theorem is_locked_spec :
  (forall (W : Type) (T : Target W) (w w' : W) (v : Z),
      target_read32 FMC_OBSTAT w = (v, w') ->
      is_locked w = (Done (PyBool (Z.testbit v 1)), w', [Read32 FMC_OBSTAT v]))
  /\ FMC_OBSTAT = 0x4002201C
  /\ result (is_locked (sim_device 0x02 0 [] 0)) = Done (PyBool true)
  /\ result (is_locked (sim_device 0x00 0 [] 0)) = Done (PyBool false)
  /\ result (is_locked (sim_device 0xFFFFFFFD 0 [] 0)) = Done (PyBool false).
Proof.
  split; [|repeat split; vm_compute; reflexivity].
  intros W T w w' v Hr. apply is_locked_eq. exact Hr.
Qed.

Lemma is_locked_spec_witness :
  target_read32 FMC_OBSTAT (sim_device 0x02 0 [] 0)
    = (0x02, sim_device 0x02 0 [] 0)
  /\ is_locked (sim_device 0x02 0 [] 0)
    = (Done (PyBool (Z.testbit 0x02 1)), sim_device 0x02 0 [] 0,
       [Read32 FMC_OBSTAT 0x02]).
Proof.
  split; [reflexivity|].
  apply (proj1 is_locked_spec). reflexivity.
Defined.

(** C5: [_flash_unlock] issues exactly two writes, [KEY1] = 0x45670123 then
    [KEY2] = 0xCDEF89AB, to the key register 0x40022004, from any state;
    [_option_unlock] emits the whole [_flash_unlock] sequence first and then
    [KEY1], [KEY2] to the option-byte key register 0x40022008, and nothing
    else. *)
Theorem unlock_sequences :
  forall (W : Type) (T : Target W) (w : W),
    FMC_KEY = 0x40022004 /\ FMC_OBKEY = 0x40022008
    /\ KEY1 = 0x45670123 /\ KEY2 = 0xCDEF89AB
    /\ _flash_unlock w =
       (Done PyNone,
        target_write32 FMC_KEY KEY2 (target_write32 FMC_KEY KEY1 w),
        [Write32 FMC_KEY KEY1; Write32 FMC_KEY KEY2])
    /\ _option_unlock w =
       (Done PyNone,
        target_write32 FMC_OBKEY KEY2
          (target_write32 FMC_OBKEY KEY1 (final (_flash_unlock w))),
        trace (_flash_unlock w)
          ++ [Write32 FMC_OBKEY KEY1; Write32 FMC_OBKEY KEY2]).
Proof.
  intros W T w. repeat split.
Qed.

(** ** The busy-poll loop *)

Section PollFacts.

Context {W : Type} `{Target W}.

Lemma busy_poll_step (fuel : nat) (to : Timeout) (w : W) :
  busy_poll (S fuel) to w =
  if expired to (clock_time w) then (Done Exhausted, w, [])
  else
    let (s, w1) := target_read32 FMC_STAT w in
    if busy_set s then
      match busy_poll fuel to (clock_sleep 0.1 w1) with
      | (r, w2, t) => (r, w2, busy_round s ++ t)
      end
    else (Done Break, w1, [Read32 FMC_STAT s]).
Proof.
  simpl. unfold bind at 1. unfold Timeout_check.
  destruct (expired to (clock_time w)); simpl; [reflexivity|].
  unfold bind at 1. unfold read32.
  destruct (target_read32 FMC_STAT w) as [s w1].
  unfold busy_set. destruct (Z.land s BUSY =? 0); simpl; [reflexivity|].
  unfold bind, sleep.
  destruct (busy_poll fuel to (clock_sleep 0.1 w1)) as [[r w2] t].
  destruct r; reflexivity.
Qed.

(** Whatever the fuel and the clock, the events of a poll are rounds that
    read busy, closed by at most one read that found the bit clear; the
    loop itself never raises. *)
Lemma busy_poll_shape (fuel : nat) (to : Timeout) (w : W) :
  exists busy last,
    trace (busy_poll fuel to w) = poll_shape busy last
    /\ Forall (fun s => busy_set s = true) busy
    /\ (forall s, last = Some s -> busy_set s = false)
    /\ (result (busy_poll fuel to w) = Done (exit_of last)
        \/ (result (busy_poll fuel to w) = OutOfFuel /\ last = None)).
Proof.
  revert w. induction fuel as [|fuel IH]; intros w.
  - exists [], None. simpl. repeat split; auto. discriminate.
  - rewrite busy_poll_step.
    destruct (expired to (clock_time w)).
    { exists [], None. simpl. repeat split; auto. discriminate. }
    destruct (target_read32 FMC_STAT w) as [s w1].
    destruct (busy_set s) eqn:Hb.
    + destruct (IH (clock_sleep 0.1 w1)) as (busy & last & Ht & Hf & Hl & Hr).
      destruct (busy_poll fuel to (clock_sleep 0.1 w1)) as [[r w2] t].
      unfold trace, result in *. simpl in *. subst t.
      exists (s :: busy), last. repeat split; auto.
    + exists [], (Some s). simpl. repeat split; auto.
      intros s' Hs. injection Hs as <-. exact Hb.
Qed.

Lemma status_reads_poll_shape (busy : list Z) (last : option Z) :
  status_reads (poll_shape busy last) =
  (List.length busy + match last with Some _ => 1 | None => 0 end)%nat.
Proof.
  unfold status_reads, poll_shape, reads_from.
  rewrite flat_map_app, length_app. f_equal.
  - induction busy as [|s busy IH]; [reflexivity|].
    simpl. rewrite IH. reflexivity.
  - destruct last; reflexivity.
Qed.

Section Bounded.

Context `{!ClockLaws W}.

(** With a clock that obeys [ClockLaws], a poll entered with at most
    [budget n] left of its timeout ends within [n] status reads, given fuel
    for [n + 1] checks. *)
Lemma busy_poll_bounded (n fuel : nat) (to : Timeout) (w : W) :
  (n < fuel)%nat ->
  (_timeout to - elapsed to (clock_time w) <= budget n)%Q ->
  exists busy last w',
    busy_poll fuel to w = (Done (exit_of last), w', poll_shape busy last)
    /\ Forall (fun s => busy_set s = true) busy
    /\ (forall s, last = Some s -> busy_set s = false)
    /\ (status_reads (poll_shape busy last) <= n)%nat.
Proof.
  revert fuel w. induction n as [|n IH]; intros fuel w Hfuel Hleft;
    (destruct fuel as [|fuel]; [lia|]); rewrite busy_poll_step.
  - assert (He : expired to (clock_time w) = true).
    { unfold expired. apply Qle_bool_iff. simpl in Hleft. lra. }
    rewrite He. exists [], None, w. repeat split; auto. discriminate.
  - destruct (expired to (clock_time w)) eqn:He.
    { exists [], None, w. repeat split; auto; [discriminate|].
      rewrite status_reads_poll_shape. simpl. lia. }
    pose proof (read32_clock FMC_STAT w) as Hread.
    destruct (target_read32 FMC_STAT w) as [s w1]. simpl in Hread.
    destruct (busy_set s) eqn:Hb.
    + pose proof (sleep_clock 0.1 w1) as Hsleep.
      destruct (IH fuel (clock_sleep 0.1 w1)) as (busy & last & w' & Hp & Hf & Hl & Hn).
      { lia. }
      { unfold elapsed in *. simpl in Hleft. lra. }
      rewrite Hp. exists (s :: busy), last, w'. repeat split; auto.
      rewrite status_reads_poll_shape in *. simpl. lia.
    + exists [], (Some s), w1. repeat split; auto.
      * intros s' Hs. injection Hs as <-. exact Hb.
      * rewrite status_reads_poll_shape. simpl. lia.
Qed.

Lemma budget_100 : (budget 100 == FLASH_ERASE_TIMEOUT)%Q.
Proof. vm_compute. reflexivity. Qed.

(** The poll as both methods enter it: from the world in which the
    [Timeout] scope was entered. *)
Lemma timed_poll_bounded (fuel : nat) (w : W) :
  (100 < fuel)%nat ->
  exists busy last w',
    busy_poll fuel (timeout_at w) w
      = (Done (exit_of last), w', poll_shape busy last)
    /\ Forall (fun s => busy_set s = true) busy
    /\ (forall s, last = Some s -> busy_set s = false)
    /\ (status_reads (poll_shape busy last) <= 100)%nat.
Proof.
  intros Hfuel. apply busy_poll_bounded; [exact Hfuel|].
  rewrite budget_100. unfold elapsed, timeout_at. simpl. lra.
Qed.

End Bounded.

End PollFacts.

(** ** Unfolding the two erase methods *)

(** Runs the straight-line rest of a method and compares the traces. *)
Ltac run_rest :=
  unfold ret, bind, LOG_error, raise, part_number,
    erase_triggers, program_writes;
  cbn [app]; rewrite ?app_nil_r; reflexivity.

Section EraseFacts.

Context {W : Type} `{Target W}.

(** [_option_erase] in terms of its poll. *)
Lemma option_erase_eq (fuel : nat) (w : W) :
  _option_erase fuel w =
  match busy_poll fuel (timeout_at (erase_entry w)) (erase_entry w) with
  | (Done Break, w1, t) =>
      (Done (PyBool true), w1, unlock_writes ++ erase_triggers ++ t)
  | (Done Exhausted, w1, t) =>
      (Done (PyBool false), w1,
       unlock_writes ++ erase_triggers ++ t
         ++ [LogError "Option byte erase timeout" []])
  | (Raised e, w1, t) => (Raised e, w1, unlock_writes ++ erase_triggers ++ t)
  | (OutOfFuel, w1, t) => (OutOfFuel, w1, unlock_writes ++ erase_triggers ++ t)
  end.
Proof.
  unfold _option_erase. unfold bind at 1. rewrite option_unlock_eq.
  unfold bind at 1. unfold write32 at 1.
  unfold bind at 1. unfold write32 at 1.
  unfold bind at 1. unfold Timeout_enter.
  unfold bind at 1.
  change (busy_poll fuel _ _)
    with (busy_poll fuel (timeout_at (erase_entry w)) (erase_entry w)).
  destruct (busy_poll fuel (timeout_at (erase_entry w)) (erase_entry w))
    as [[r w1] t].
  destruct r as [[|]| |]; run_rest.
Qed.

(** [mass_erase] on a device that reads not locked. *)
Lemma mass_erase_unlocked_eq (fuel : nat) (w w1 : W) (st : Z) :
  target_read32 FMC_OBSTAT w = (st, w1) ->
  Z.testbit st 1 = false ->
  mass_erase fuel w =
  let eraser := {| eraser_mode := CHIP; _log_chip_erase := false |} in
  (match fst (eraser_erase eraser w1) with
   | None => Done PyNone
   | Some x => Raised x
   end,
   snd (eraser_erase eraser w1),
   [Read32 FMC_OBSTAT st; EraserErase eraser]).
Proof.
  intros Hr Hb. unfold mass_erase. unfold bind at 1.
  rewrite (is_locked_eq _ _ _ Hr), Hb. cbn [truthy].
  unfold bind, FlashEraser_erase, FlashEraser_new, set_log_chip_erase.
  simpl.
  destruct (eraser_erase _ w1) as [[x|] w2]; reflexivity.
Qed.

(** [mass_erase] on a device that reads locked, in terms of
    [_option_erase] and the final poll. *)
Lemma mass_erase_locked_eq (fuel : nat) (w w1 w2 : W) (st v : Z) :
  target_read32 FMC_OBSTAT w = (st, w1) ->
  Z.testbit st 1 = true ->
  target_read16 0x1FFFF802 w1 = (v, w2) ->
  let pre := [Read32 FMC_OBSTAT st; Read16 0x1FFFF802 v] in
  let unlock_fail := TargetError "unable to unlock device" in
  mass_erase fuel w =
  match _option_erase fuel w2 with
  | (Done ok, w3, t1) =>
      if truthy ok then
        let w4 := program_entry v w3 in
        match busy_poll fuel (timeout_at w4) w4 with
        | (Done Break, w5, t2) =>
            (Done PyNone, w5,
             pre ++ t1 ++ unlock_writes ++ program_writes v ++ t2)
        | (Done Exhausted, w5, t2) =>
            (Raised unlock_fail, w5,
             pre ++ t1 ++ unlock_writes ++ program_writes v ++ t2
               ++ [LogError "%s: mass erase failed" [target_part_number w5]])
        | (Raised e, w5, t2) =>
            (Raised e, w5,
             pre ++ t1 ++ unlock_writes ++ program_writes v ++ t2)
        | (OutOfFuel, w5, t2) =>
            (OutOfFuel, w5,
             pre ++ t1 ++ unlock_writes ++ program_writes v ++ t2)
        end
      else
        (Raised unlock_fail, w3,
         pre ++ t1
           ++ [LogError "%s: option byte unlock fail" [target_part_number w3]])
  | (Raised e, w3, t1) => (Raised e, w3, pre ++ t1)
  | (OutOfFuel, w3, t1) => (OutOfFuel, w3, pre ++ t1)
  end.
Proof.
  intros Hr Hb Hu pre unlock_fail. unfold mass_erase. unfold bind at 1.
  rewrite (is_locked_eq _ _ _ Hr), Hb. cbn [truthy].
  unfold bind, read16, write32, write16, Timeout_enter.
  rewrite Hu. cbv beta iota.
  destruct (_option_erase fuel w2) as [[r w3] t1].
  destruct r as [ok| |]; [|reflexivity|reflexivity].
  destruct (truthy ok); cbv beta iota delta [negb].
  - unfold ret at 1. cbv beta iota. rewrite option_unlock_eq. cbv beta iota.
    change (busy_poll fuel _ _)
      with (busy_poll fuel (timeout_at (program_entry v w3))
              (program_entry v w3)).
    destruct (busy_poll fuel (timeout_at (program_entry v w3))
                (program_entry v w3)) as [[r w5] t2].
    destruct r as [[|]| |]; run_rest.
  - run_rest.
Qed.

End EraseFacts.

(** ** Complete runs under a lawful clock *)

Section Runs.

Context {W : Type} `{Target W} `{!ClockLaws W}.

Lemma timed_poll_run (fuel : nat) (w : W) :
  (100 < fuel)%nat ->
  exists busy last w',
    busy_poll fuel (timeout_at w) w
      = (Done (exit_of last), w', poll_shape busy last)
    /\ poll_ok 100 busy last.
Proof.
  intros Hfuel.
  destruct (timed_poll_bounded fuel w Hfuel)
    as (busy & last & w' & Hp & Hf & Hl & Hn).
  exists busy, last, w'. split; [exact Hp|]. repeat split.
  - eapply Forall_impl; [|exact Hf].
    intros s Hs. rewrite <- busy_set_bit0. exact Hs.
  - intros s Hs. rewrite <- busy_set_bit0. apply Hl. exact Hs.
  - exact Hn.
Qed.

Lemma option_erase_run (fuel : nat) (w : W) :
  (100 < fuel)%nat ->
  exists busy last w',
    _option_erase fuel w
      = (Done (PyBool (found_clear last)), w', erase_trace busy last)
    /\ poll_ok 100 busy last.
Proof.
  intros Hfuel.
  destruct (timed_poll_run fuel (erase_entry w) Hfuel)
    as (busy & last & w' & Hp & Hok).
  exists busy, last, w'. split; [|exact Hok].
  rewrite option_erase_eq, Hp. unfold erase_trace.
  destruct last; simpl; rewrite ?app_nil_r; reflexivity.
Qed.

Lemma mass_erase_locked_run (fuel : nat) (w w1 w2 : W) (st v : Z) :
  (100 < fuel)%nat ->
  target_read32 FMC_OBSTAT w = (st, w1) ->
  Z.testbit st 1 = true ->
  target_read16 0x1FFFF802 w1 = (v, w2) ->
  exists busy1 last1 busy2 last2 w3 w',
    _option_erase fuel w2
      = (Done (PyBool (found_clear last1)), w3, erase_trace busy1 last1)
    /\ mass_erase fuel w
      = (locked_result last1 last2, w',
         locked_trace st v (target_part_number w') busy1 last1 busy2 last2)
    /\ poll_ok 100 busy1 last1
    /\ poll_ok 100 busy2 last2.
Proof.
  intros Hfuel Hr Hb Hu.
  destruct (option_erase_run fuel w2 Hfuel)
    as (busy1 & last1 & w3 & He & Hok1).
  rewrite (mass_erase_locked_eq fuel w w1 w2 st v Hr Hb Hu), He.
  cbv zeta. cbn [truthy].
  destruct last1 as [s1|]; cbn [found_clear].
  - destruct (timed_poll_run fuel (program_entry v w3) Hfuel)
      as (busy2 & last2 & w' & Hp & Hok2).
    exists busy1, (Some s1), busy2, last2, w3, w'.
    rewrite Hp. split; [reflexivity|]. split; [|split; assumption].
    unfold locked_trace, program_trace, locked_result.
    destruct last2; simpl; rewrite ?app_nil_r; reflexivity.
  - exists busy1, None, [], None, w3, w3.
    split; [reflexivity|]. split; [reflexivity|]. split; [assumption|].
    repeat split; [constructor|discriminate|].
    rewrite status_reads_poll_shape. simpl. lia.
Qed.

End Runs.

(** ** Observing the shapes *)

Lemma writes_to_app (a : Z) (t1 t2 : list event) :
  writes_to a (t1 ++ t2) = writes_to a t1 ++ writes_to a t2.
Proof. apply flat_map_app. Qed.

Lemma reads_from_app (a : Z) (t1 t2 : list event) :
  reads_from a (t1 ++ t2) = reads_from a t1 ++ reads_from a t2.
Proof. apply flat_map_app. Qed.

Lemma replay_app (t1 t2 : list event) (m : store) :
  replay (t1 ++ t2) m = replay t2 (replay t1 m).
Proof. apply fold_left_app. Qed.

Lemma status_reads_app (t1 t2 : list event) :
  status_reads (t1 ++ t2) = (status_reads t1 + status_reads t2)%nat.
Proof. unfold status_reads. rewrite reads_from_app. apply length_app. Qed.

Lemma poll_shape_cons (s : Z) (busy : list Z) (last : option Z) :
  poll_shape (s :: busy) last
  = Read32 FMC_STAT s :: Sleep 0.1 :: poll_shape busy last.
Proof. reflexivity. Qed.

Lemma poll_shape_nil (last : option Z) :
  poll_shape [] last = match last with Some s => [Read32 FMC_STAT s] | None => [] end.
Proof. reflexivity. Qed.

Lemma writes_to_poll (a : Z) (busy : list Z) (last : option Z) :
  writes_to a (poll_shape busy last) = [].
Proof.
  induction busy as [|s busy IH].
  - destruct last; reflexivity.
  - rewrite poll_shape_cons. exact IH.
Qed.

Lemma filter_write_poll (busy : list Z) (last : option Z) :
  filter is_write (poll_shape busy last) = [].
Proof.
  induction busy as [|s busy IH].
  - destruct last; reflexivity.
  - rewrite poll_shape_cons. exact IH.
Qed.

Lemma replay_poll (busy : list Z) (last : option Z) (m : store) :
  replay (poll_shape busy last) m = m.
Proof.
  induction busy as [|s busy IH].
  - destruct last; reflexivity.
  - rewrite poll_shape_cons. exact IH.
Qed.

Lemma reads_from_read32 (a x v : Z) (t : list event) :
  reads_from a (Read32 x v :: t)
  = (if x =? a then [v] else []) ++ reads_from a t.
Proof. reflexivity. Qed.

Lemma reads_from_poll_other (a : Z) (busy : list Z) (last : option Z) :
  a <> FMC_STAT -> reads_from a (poll_shape busy last) = [].
Proof.
  intros Ha.
  assert (Hne : (FMC_STAT =? a) = false) by (apply Z.eqb_neq; congruence).
  induction busy as [|s busy IH].
  - destruct last as [s|]; [|reflexivity].
    rewrite poll_shape_nil, reads_from_read32, Hne. reflexivity.
  - rewrite poll_shape_cons, reads_from_read32, Hne. exact IH.
Qed.

Lemma reads_from_poll_status (busy : list Z) (last : option Z) :
  reads_from FMC_STAT (poll_shape busy last) = busy ++ closing_read last.
Proof.
  induction busy as [|s busy IH].
  - destruct last; reflexivity.
  - rewrite poll_shape_cons. simpl. f_equal. exact IH.
Qed.

(** The simulated target's clock obeys the laws: only [sleep] moves it. *)
#[export] Instance sim_clock_laws : ClockLaws sim.
Proof.
  split.
  - intros a s. simpl. unfold sim_read32.
    destruct (a =? FMC_STAT); [destruct (sim_stat s)|]; simpl; apply Qle_refl.
  - intros d s. simpl. apply Qle_refl.
Qed.

Lemma erase_triggers_values :
  erase_triggers = [Write32 FMC_CTL 0x220; Write32 FMC_CTL 0x260].
Proof. reflexivity. Qed.

Lemma status_reads_erase_trace (busy : list Z) (last : option Z) :
  status_reads (erase_trace busy last) = status_reads (poll_shape busy last).
Proof.
  unfold erase_trace. rewrite !status_reads_app.
  change (status_reads unlock_writes) with 0%nat.
  change (status_reads erase_triggers) with 0%nat.
  destruct last; simpl found_clear; cbv iota;
    [change (status_reads []) with 0%nat
    |change (status_reads [LogError _ _]) with 0%nat]; lia.
Qed.

Lemma status_reads_program_trace (v : Z) (pn : string)
    (busy : list Z) (last : option Z) :
  status_reads (program_trace v pn busy last)
  = status_reads (poll_shape busy last).
Proof.
  unfold program_trace. rewrite !status_reads_app.
  change (status_reads unlock_writes) with 0%nat.
  change (status_reads (program_writes v)) with 0%nat.
  destruct last; simpl found_clear; cbv iota;
    [change (status_reads []) with 0%nat
    |change (status_reads [LogError _ _]) with 0%nat]; lia.
Qed.

Lemma status_reads_locked_trace (st v : Z) (pn : string)
    (busy1 : list Z) (last1 : option Z) (busy2 : list Z) (last2 : option Z) :
  poll_ok 100 busy1 last1 -> poll_ok 100 busy2 last2 ->
  (status_reads (locked_trace st v pn busy1 last1 busy2 last2) <= 200)%nat.
Proof.
  intros (_ & _ & H1) (_ & _ & H2).
  unfold locked_trace. rewrite !status_reads_app, status_reads_erase_trace.
  change (status_reads [Read32 FMC_OBSTAT st; Read16 0x1FFFF802 v]) with 0%nat.
  destruct (found_clear last1).
  - rewrite status_reads_program_trace. lia.
  - change (status_reads [LogError _ _]) with 0%nat. lia.
Qed.

(** C8: both busy-poll loops terminate.  Entered through its [Timeout]
    scope, where the 10.0-unit deadline is fixed once, the loop reads the
    status register, leaves at the first read that shows the busy bit clear,
    sleeps 0.1 after every read that shows it set, and makes at most
    10.0 / 0.1 = 100 reads, whatever values the status register returns.
    Hence neither [_option_erase] nor [mass_erase] runs on for ever. *)
Theorem busy_poll_terminates :
  forall (W : Type) (T : Target W) (L : ClockLaws W) (fuel : nat) (w : W),
    (100 < fuel)%nat ->
    (FLASH_ERASE_TIMEOUT / 0.1 == 100)%Q
    /\ (exists busy last w',
          (to <- Timeout_enter FLASH_ERASE_TIMEOUT ;; busy_poll fuel to)%m w
            = (Done (exit_of last), w', poll_shape busy last)
          /\ Forall (fun s => Z.testbit s 0 = true) busy
          /\ (forall s, last = Some s -> Z.testbit s 0 = false)
          /\ (status_reads (poll_shape busy last) <= 100)%nat)
    /\ result (_option_erase fuel w) <> OutOfFuel
    /\ (status_reads (trace (_option_erase fuel w)) <= 100)%nat
    /\ result (mass_erase fuel w) <> OutOfFuel
    /\ (status_reads (trace (mass_erase fuel w)) <= 200)%nat.
Proof.
  intros W T L fuel w Hfuel.
  split; [vm_compute; reflexivity|]. split; [|split; [|split]].
  - destruct (timed_poll_run fuel w Hfuel)
      as (busy & last & w' & Hp & Hf & Hl & Hn).
    exists busy, last, w'. split; [|auto].
    unfold bind at 1. unfold Timeout_enter.
    change (busy_poll fuel _ w) with (busy_poll fuel (timeout_at w) w).
    rewrite Hp. reflexivity.
  - destruct (option_erase_run fuel w Hfuel) as (busy & last & w' & He & Hok).
    rewrite He. discriminate.
  - destruct (option_erase_run fuel w Hfuel)
      as (busy & last & w' & He & _ & _ & Hn).
    rewrite He. unfold trace, snd. rewrite status_reads_erase_trace. exact Hn.
  - destruct (target_read32 FMC_OBSTAT w) as [st w1] eqn:Hr.
    destruct (Z.testbit st 1) eqn:Hb.
    + destruct (target_read16 0x1FFFF802 w1) as [v w2] eqn:Hu.
      destruct (mass_erase_locked_run fuel w w1 w2 st v Hfuel Hr Hb Hu)
        as (busy1 & last1 & busy2 & last2 & w3 & w' & _ & Hm & Hok1 & Hok2).
      rewrite Hm. unfold result, trace, fst, snd. split.
      * unfold locked_result.
        destruct (found_clear last1 && found_clear last2); discriminate.
      * apply status_reads_locked_trace; assumption.
    + rewrite (mass_erase_unlocked_eq fuel w w1 st Hr Hb). cbv zeta.
      unfold result, trace, fst, snd. split.
      * destruct (eraser_erase _ w1) as [[x|] w2]; discriminate.
      * change (status_reads [Read32 FMC_OBSTAT st; EraserErase _]) with 0%nat.
        lia.
Qed.

Lemma busy_poll_terminates_witness :
  (100 < 101)%nat
  /\ (exists busy last w',
        (to <- Timeout_enter FLASH_ERASE_TIMEOUT ;; busy_poll 101 to)%m
          sim_stuck
          = (Done (exit_of last), w', poll_shape busy last)
        /\ Forall (fun s => Z.testbit s 0 = true) busy
        /\ (forall s, last = Some s -> Z.testbit s 0 = false)
        /\ (status_reads (poll_shape busy last) <= 100)%nat).
Proof.
  split; [lia|].
  apply (busy_poll_terminates sim sim_target sim_clock_laws 101
           sim_stuck).
  lia.
Defined.

(** On a device that stays busy for ever, with a clock that only [sleep]
    moves, the poll makes exactly 100 reads: the bound is reached. *)
Example busy_poll_always_busy :
  result (mass_erase 101 sim_stuck)
    = Raised (TargetError "unable to unlock device")
  /\ status_reads (trace (_option_erase 101 sim_stuck))
     = 100%nat.
Proof. split; vm_compute; reflexivity. Qed.

(** ** The byte store *)

Lemma load8_store8_same (a v : Z) (m : store) :
  load8 (store8 a v m) a = v mod 256.
Proof.
  unfold load8, store8. rewrite Z.eqb_refl. apply Z.mod_mod. lia.
Qed.

Lemma load8_store8_other (a b v : Z) (m : store) :
  a <> b -> load8 (store8 a v m) b = load8 m b.
Proof.
  intros Hab. unfold load8, store8.
  destruct (Z.eqb_spec b a); [congruence|reflexivity].
Qed.

Lemma load8_range (m : store) (a : Z) : 0 <= load8 m a < 256.
Proof. unfold load8. apply Z.mod_pos_bound. lia. Qed.

Lemma load16_range (m : store) (a : Z) : 0 <= load16 m a < 65536.
Proof.
  unfold load16.
  pose proof (load8_range m a). pose proof (load8_range m (a + 1)). lia.
Qed.

Lemma load16_store16_same (a v : Z) (m : store) :
  load16 (store16 a v m) a = v mod 65536.
Proof.
  unfold load16, store16.
  rewrite load8_store8_other by lia.
  rewrite !load8_store8_same.
  Z.div_mod_to_equations. lia.
Qed.

Lemma load16_store16_other (a b v : Z) (m : store) :
  a + 1 < b \/ b + 1 < a -> load16 (store16 a v m) b = load16 m b.
Proof.
  intros Hab. unfold load16, store16.
  rewrite !load8_store8_other by lia. reflexivity.
Qed.

Lemma load16_store32_other (a b v : Z) (m : store) :
  a + 3 < b \/ b + 1 < a -> load16 (store32 a v m) b = load16 m b.
Proof.
  intros Hab. unfold store32.
  rewrite !load16_store16_other by lia. reflexivity.
Qed.

(** Writes that stay clear of a halfword leave it as it was. *)
Lemma replay_clear (a : Z) (tr : list event) (m : store) :
  forallb (clear_of a) tr = true ->
  load16 (replay tr m) a = load16 m a.
Proof.
  revert m. induction tr as [|e tr IH]; intros m Hc; [reflexivity|].
  simpl in Hc. apply andb_true_iff in Hc. destruct Hc as [He Htr].
  change (replay (e :: tr) m) with (replay tr (apply_write m e)).
  rewrite (IH _ Htr).
  destruct e; simpl in *; try reflexivity.
  - apply load16_store16_other.
    apply orb_true_iff in He. rewrite !Z.ltb_lt in He. exact He.
  - apply load16_store32_other.
    apply orb_true_iff in He. rewrite !Z.ltb_lt in He. exact He.
Qed.

Lemma clear_of_poll (a : Z) (busy : list Z) (last : option Z) :
  forallb (clear_of a) (poll_shape busy last) = true.
Proof.
  induction busy as [|s busy IH].
  - destruct last; reflexivity.
  - rewrite poll_shape_cons. exact IH.
Qed.

(** ** The locked branch of [mass_erase] *)

(** Pushes an observer through the shape of a run and evaluates it on the
    fixed parts. *)
Ltac observe :=
  unfold locked_trace, erase_trace, program_trace;
  repeat match goal with
         | |- context [found_clear ?l] => is_var l; destruct l
         end;
  cbn [found_clear];
  rewrite ?reads_from_app, ?writes_to_app, ?filter_app, ?forallb_app,
    ?writes_to_poll, ?filter_write_poll, ?clear_of_poll;
  rewrite ?(reads_from_poll_other 0x1FFFF802) by (vm_compute; discriminate);
  try reflexivity.

Lemma user_option_survives (v : Z) (before after : list event) (m : store) :
  load16 m 0x1FFFF802 = v ->
  forallb (clear_of 0x1FFFF802) after = true ->
  load16 (replay (before ++ [Write16 0x1FFFF802 v] ++ after) m) 0x1FFFF802 = v.
Proof.
  intros Hv Hafter. rewrite !replay_app, (replay_clear _ _ _ Hafter).
  change (replay [Write16 0x1FFFF802 v] (replay before m))
    with (store16 0x1FFFF802 v (replay before m)).
  rewrite load16_store16_same.
  pose proof (load16_range m 0x1FFFF802) as Hrange. rewrite Hv in Hrange.
  apply Z.mod_small. exact Hrange.
Qed.

(** C1: on the locked branch [mass_erase] reads the user-option halfword at
    0x1FFFF802 exactly once, before any write (only the lock query comes
    before it); when the option-byte erase succeeds it writes 0x5AA5 to
    0x1FFFF800 and, right after, the value [v] it had read back to
    0x1FFFF802, and writes nothing afterwards; when the erase fails it
    writes to neither address.  So the halfword, if it held [v] at entry,
    holds [v] after the writes of the whole run. *)
Theorem mass_erase_restores_user_option :
  forall (W : Type) (T : Target W) (L : ClockLaws W) (fuel : nat)
         (w w1 w2 : W) (st v : Z),
    (100 < fuel)%nat ->
    target_read32 FMC_OBSTAT w = (st, w1) ->
    Z.testbit st 1 = true ->
    target_read16 0x1FFFF802 w1 = (v, w2) ->
    let tr := trace (mass_erase fuel w) in
    (exists rest,
        tr = Read32 FMC_OBSTAT st :: Read16 0x1FFFF802 v :: rest
        /\ reads_from 0x1FFFF802 rest = [])
    /\ (result (_option_erase fuel w2) = Done (PyBool true) ->
        exists before after,
          tr = before
                 ++ [Write16 0x1FFFF800 0x5AA5; Write16 0x1FFFF802 v]
                 ++ after
          /\ writes_to 0x1FFFF800 before = []
          /\ writes_to 0x1FFFF802 before = []
          /\ filter is_write after = [])
    /\ (result (_option_erase fuel w2) = Done (PyBool false) ->
        writes_to 0x1FFFF800 tr = [] /\ writes_to 0x1FFFF802 tr = [])
    /\ (forall m : store,
          load16 m 0x1FFFF802 = v ->
          load16 (replay tr m) 0x1FFFF802 = v).
Proof.
  intros W T L fuel w w1 w2 st v Hfuel Hr Hb Hu tr.
  destruct (mass_erase_locked_run fuel w w1 w2 st v Hfuel Hr Hb Hu)
    as (busy1 & last1 & busy2 & last2 & w3 & w' & He & Hm & _ & _).
  subst tr. rewrite Hm, He. unfold trace, result, fst, snd.
  set (pn := target_part_number w'). clearbody pn.
  destruct last1 as [s1|]; cbn [found_clear].
  - split; [|split; [|split]].
    + eexists. split; [reflexivity|]. observe.
    + intros _.
      exists ([Read32 FMC_OBSTAT st; Read16 0x1FFFF802 v]
                ++ erase_trace busy1 (Some s1) ++ unlock_writes
                ++ [Write32 FMC_CTL (Z.lor OBPG OBWEN)]),
             (poll_shape busy2 last2
                ++ (if found_clear last2 then []
                    else [LogError "%s: mass erase failed" [pn]])).
      split; [|split; [|split]].
      * unfold locked_trace, program_trace, program_writes.
        cbn [found_clear]. rewrite <- !app_assoc. reflexivity.
      * observe.
      * observe.
      * observe.
    + intros Hfalse. discriminate Hfalse.
    + intros m Hv.
      change (locked_trace st v pn busy1 (Some s1) busy2 last2)
        with (([Read32 FMC_OBSTAT st; Read16 0x1FFFF802 v]
                 ++ erase_trace busy1 (Some s1))
                ++ program_trace v pn busy2 last2).
      unfold program_trace, program_writes.
      replace (unlock_writes
                 ++ [Write32 FMC_CTL (Z.lor OBPG OBWEN);
                     Write16 0x1FFFF800 0x5AA5; Write16 0x1FFFF802 v]
                 ++ poll_shape busy2 last2
                 ++ (if found_clear last2 then []
                     else [LogError "%s: mass erase failed" [pn]]))
        with ((unlock_writes
                 ++ [Write32 FMC_CTL (Z.lor OBPG OBWEN);
                     Write16 0x1FFFF800 0x5AA5])
                ++ [Write16 0x1FFFF802 v]
                ++ poll_shape busy2 last2
                ++ (if found_clear last2 then []
                    else [LogError "%s: mass erase failed" [pn]]))
        by (rewrite <- !app_assoc; reflexivity).
      rewrite app_assoc. apply user_option_survives; [exact Hv|]. observe.
  - split; [|split; [|split]].
    + eexists. split; [reflexivity|]. observe.
    + intros Htrue. discriminate Htrue.
    + intros _. split; observe.
    + intros m Hv. rewrite <- Hv at 2. apply replay_clear. observe.
Qed.

Lemma mass_erase_restores_user_option_witness :
  (100 < 101)%nat
  /\ target_read32 FMC_OBSTAT sim_recovering = (0x02, sim_recovering)
  /\ Z.testbit 0x02 1 = true
  /\ target_read16 0x1FFFF802 sim_recovering = (0xABCD, sim_recovering)
  /\ (exists rest,
        trace (mass_erase 101 sim_recovering)
          = Read32 FMC_OBSTAT 0x02 :: Read16 0x1FFFF802 0xABCD :: rest
        /\ reads_from 0x1FFFF802 rest = [])
  /\ (forall m : store,
        load16 m 0x1FFFF802 = 0xABCD ->
        load16 (replay (trace (mass_erase 101 sim_recovering)) m) 0x1FFFF802
          = 0xABCD).
Proof.
  split; [lia|]. split; [reflexivity|]. split; [reflexivity|].
  split; [reflexivity|].
  pose proof (mass_erase_restores_user_option sim sim_target sim_clock_laws
                101 sim_recovering sim_recovering sim_recovering
                0x02 0xABCD) as Hthm.
  cbv zeta in Hthm.
  destruct Hthm as (Honce & _ & _ & Hfinal);
    [lia|reflexivity|reflexivity|reflexivity|].
  split; [exact Honce|exact Hfinal].
Defined.

(** C3: on the locked branch, when [_option_erase] returns False,
    [mass_erase] raises [TargetError "unable to unlock device"]: after the
    events of [_option_erase] it only logs, leaving the device as
    [_option_erase] left it.  When the poll of the programming step times
    out it raises the same error.  A complete locked run either returns
    None or raises that error. *)
Theorem mass_erase_failures_are_fatal :
  forall (W : Type) (T : Target W) (L : ClockLaws W) (fuel : nat)
         (w w1 w2 : W) (st v : Z),
    (100 < fuel)%nat ->
    target_read32 FMC_OBSTAT w = (st, w1) ->
    Z.testbit st 1 = true ->
    target_read16 0x1FFFF802 w1 = (v, w2) ->
    let pre := [Read32 FMC_OBSTAT st; Read16 0x1FFFF802 v] in
    let unlock_fail := TargetError "unable to unlock device" in
    (forall w3 t1,
        _option_erase fuel w2 = (Done (PyBool false), w3, t1) ->
        mass_erase fuel w
        = (Raised unlock_fail, w3,
           pre ++ t1
             ++ [LogError "%s: option byte unlock fail"
                   [target_part_number w3]]))
    /\ (forall w3 t1 w5 t2,
        _option_erase fuel w2 = (Done (PyBool true), w3, t1) ->
        busy_poll fuel (timeout_at (program_entry v w3)) (program_entry v w3)
          = (Done Exhausted, w5, t2) ->
        mass_erase fuel w
        = (Raised unlock_fail, w5,
           pre ++ t1 ++ unlock_writes ++ program_writes v ++ t2
             ++ [LogError "%s: mass erase failed" [target_part_number w5]]))
    /\ (result (mass_erase fuel w) = Done PyNone
        \/ result (mass_erase fuel w) = Raised unlock_fail).
Proof.
  intros W T L fuel w w1 w2 st v Hfuel Hr Hb Hu pre unlock_fail.
  pose proof (mass_erase_locked_eq fuel w w1 w2 st v Hr Hb Hu) as Heq.
  cbv zeta in Heq. split; [|split].
  - intros w3 t1 He. rewrite Heq, He. reflexivity.
  - intros w3 t1 w5 t2 He Hp. rewrite Heq, He. cbn [truthy]. rewrite Hp.
    reflexivity.
  - destruct (mass_erase_locked_run fuel w w1 w2 st v Hfuel Hr Hb Hu)
      as (busy1 & last1 & busy2 & last2 & w3 & w' & _ & Hm & _ & _).
    rewrite Hm. unfold result, fst, locked_result.
    destruct (found_clear last1 && found_clear last2); [left|right];
      reflexivity.
Qed.

Lemma mass_erase_failures_are_fatal_witness :
  (100 < 101)%nat
  /\ target_read32 FMC_OBSTAT sim_stuck = (0x02, sim_stuck)
  /\ Z.testbit 0x02 1 = true
  /\ target_read16 0x1FFFF802 sim_stuck = (0xABCD, sim_stuck)
  /\ result (_option_erase 101 sim_stuck) = Done (PyBool false)
  /\ mass_erase 101 sim_stuck
     = (Raised (TargetError "unable to unlock device"),
        final (_option_erase 101 sim_stuck),
        [Read32 FMC_OBSTAT 0x02; Read16 0x1FFFF802 0xABCD]
          ++ trace (_option_erase 101 sim_stuck)
          ++ [LogError "%s: option byte unlock fail"
                [target_part_number (final (_option_erase 101 sim_stuck))]]).
Proof.
  split; [lia|]. split; [reflexivity|]. split; [reflexivity|].
  split; [reflexivity|]. split; [vm_compute; reflexivity|].
  pose proof (mass_erase_failures_are_fatal sim sim_target sim_clock_laws
                101 sim_stuck sim_stuck sim_stuck 0x02 0xABCD) as Hthm.
  cbv zeta in Hthm.
  destruct Hthm as (Hfail & _ & _);
    [lia|reflexivity|reflexivity|reflexivity|].
  apply Hfail. vm_compute. reflexivity.
Defined.

(** ** The branch for a device that is not locked *)

(** C6: when [is_locked] returns false, [mass_erase] hands over to the
    chip-erase collaborator, built in chip mode with its completion logging
    switched off, and returns None unless the collaborator raises.  After
    the lock query it emits nothing but that call: the query's read of the
    option-byte-status register is the only access of the whole run to a
    register of the unlock protocol, and there is no write at all. *)
Theorem mass_erase_unlocked_delegates :
  forall (W : Type) (T : Target W) (fuel : nat) (w w1 : W) (st : Z),
    target_read32 FMC_OBSTAT w = (st, w1) ->
    Z.testbit st 1 = false ->
    let eraser := {| eraser_mode := CHIP; _log_chip_erase := false |} in
    is_locked w = (Done (PyBool false), w1, [Read32 FMC_OBSTAT st])
    /\ mass_erase fuel w
       = (match fst (eraser_erase eraser w1) with
          | None => Done PyNone
          | Some x => Raised x
          end,
          snd (eraser_erase eraser w1),
          trace (is_locked w) ++ [EraserErase eraser])
    /\ filter (touches_any option_byte_registers) [EraserErase eraser] = []
    /\ filter (touches_any option_byte_registers) (trace (mass_erase fuel w))
       = trace (is_locked w)
    /\ filter is_write (trace (mass_erase fuel w)) = [].
Proof.
  intros W T fuel w w1 st Hr Hb eraser.
  rewrite (mass_erase_unlocked_eq fuel w w1 st Hr Hb).
  rewrite (is_locked_eq w w1 st Hr), Hb.
  repeat split.
Qed.

Lemma mass_erase_unlocked_delegates_witness :
  target_read32 FMC_OBSTAT sim_open = (0xFFFFFFFD, sim_open)
  /\ Z.testbit 0xFFFFFFFD 1 = false
  /\ mass_erase 101 sim_open
     = (Done PyNone, sim_open,
        [Read32 FMC_OBSTAT 0xFFFFFFFD;
         EraserErase {| eraser_mode := CHIP; _log_chip_erase := false |}]).
Proof.
  split; [reflexivity|]. split; [reflexivity|].
  pose proof (mass_erase_unlocked_delegates sim sim_target 101
                sim_open sim_open 0xFFFFFFFD) as Hthm.
  cbv zeta in Hthm.
  destruct Hthm as (_ & Hrun & _); [reflexivity|reflexivity|].
  exact Hrun.
Defined.

(** ** What [mass_erase] returns *)

(** C10: whenever [mass_erase] returns, it returns None.  A complete run
    ends in None or in an exception, never in a boolean; on the locked
    branch a False from [_option_erase] always becomes the raised
    [TargetError "unable to unlock device"], and on the other branch the
    run returns None exactly when the collaborator raises nothing. *)
Theorem mass_erase_returns_none :
  forall (W : Type) (T : Target W) (L : ClockLaws W) (fuel : nat) (w : W),
    (100 < fuel)%nat ->
    (forall x, result (mass_erase fuel w) = Done x -> x = PyNone)
    /\ (result (mass_erase fuel w) = Done PyNone
        \/ exists e, result (mass_erase fuel w) = Raised e)
    /\ (forall w1 w2 st v,
          target_read32 FMC_OBSTAT w = (st, w1) ->
          Z.testbit st 1 = true ->
          target_read16 0x1FFFF802 w1 = (v, w2) ->
          result (_option_erase fuel w2) = Done (PyBool false) ->
          result (mass_erase fuel w)
          = Raised (TargetError "unable to unlock device"))
    /\ (forall w1 st,
          target_read32 FMC_OBSTAT w = (st, w1) ->
          Z.testbit st 1 = false ->
          result (mass_erase fuel w)
          = match fst (eraser_erase
                         {| eraser_mode := CHIP; _log_chip_erase := false |}
                         w1) with
            | None => Done PyNone
            | Some x => Raised x
            end).
Proof.
  intros W T L fuel w Hfuel.
  assert (Hcases : result (mass_erase fuel w) = Done PyNone
                   \/ exists e, result (mass_erase fuel w) = Raised e).
  { destruct (target_read32 FMC_OBSTAT w) as [st w1] eqn:Hr.
    destruct (Z.testbit st 1) eqn:Hb.
    - destruct (target_read16 0x1FFFF802 w1) as [v w2] eqn:Hu.
      destruct (mass_erase_locked_run fuel w w1 w2 st v Hfuel Hr Hb Hu)
        as (busy1 & last1 & busy2 & last2 & w3 & w' & _ & Hm & _ & _).
      rewrite Hm. unfold result, fst, locked_result.
      destruct (found_clear last1 && found_clear last2);
        [left; reflexivity|right; eexists; reflexivity].
    - rewrite (mass_erase_unlocked_eq fuel w w1 st Hr Hb). cbv zeta.
      unfold result, fst.
      destruct (eraser_erase _ w1) as [[x|] w2];
        [right; eexists; reflexivity|left; reflexivity]. }
  split; [|split; [exact Hcases|split]].
  - intros x Hx. destruct Hcases as [Hn|[e He]]; congruence.
  - intros w1 w2 st v Hr Hb Hu He.
    destruct (mass_erase_locked_run fuel w w1 w2 st v Hfuel Hr Hb Hu)
      as (busy1 & last1 & busy2 & last2 & w3 & w' & He' & Hm & _ & _).
    rewrite He' in He. unfold result, fst in He.
    rewrite Hm. unfold result, fst, locked_result.
    destruct (found_clear last1); [discriminate He|reflexivity].
  - intros w1 st Hr Hb.
    rewrite (mass_erase_unlocked_eq fuel w w1 st Hr Hb). reflexivity.
Qed.

Lemma mass_erase_returns_none_witness :
  (100 < 101)%nat
  /\ result (mass_erase 101 sim_recovering) = Done PyNone
  /\ (forall x, result (mass_erase 101 sim_recovering) = Done x -> x = PyNone).
Proof.
  split; [lia|]. split; [vm_compute; reflexivity|].
  apply (mass_erase_returns_none sim sim_target sim_clock_laws 101
           sim_recovering).
  lia.
Defined.

(** * Further properties of the methods *)

(** ** Runs cut short or on any clock *)

Section AnyRun.

Context {W : Type} `{Target W}.

Lemma forallb_poll (p : event -> bool) (busy : list Z) (last : option Z) :
  (forall s, p (Read32 FMC_STAT s) = true) ->
  p (Sleep 0.1) = true ->
  forallb p (poll_shape busy last) = true.
Proof.
  intros Hread Hsleep. induction busy as [|s busy IH].
  - destruct last as [s|]; [|reflexivity]. simpl. rewrite Hread. reflexivity.
  - rewrite poll_shape_cons. simpl. rewrite Hread, Hsleep. exact IH.
Qed.

Lemma forallb_busy_poll (p : event -> bool) (fuel : nat) (to : Timeout) (w : W) :
  (forall s, p (Read32 FMC_STAT s) = true) ->
  p (Sleep 0.1) = true ->
  forallb p (trace (busy_poll fuel to w)) = true.
Proof.
  intros Hread Hsleep.
  destruct (busy_poll_shape fuel to w) as (busy & last & Ht & _).
  rewrite Ht. apply forallb_poll; assumption.
Qed.

(** The loop itself never raises. *)
Lemma busy_poll_no_raise (fuel : nat) (to : Timeout) (w : W) (e : exn) :
  result (busy_poll fuel to w) <> Raised e.
Proof.
  destruct (busy_poll_shape fuel to w) as (busy & last & _ & _ & _ & Hr).
  destruct Hr as [Hr|[Hr _]]; rewrite Hr; discriminate.
Qed.

(** What holds of every fixed event of [_option_erase] and of the events of
    a poll holds of its whole trace, whatever the fuel and the clock. *)
Lemma option_erase_forall (p : event -> bool) (fuel : nat) (w : W) :
  forallb p unlock_writes = true ->
  forallb p erase_triggers = true ->
  (forall s, p (Read32 FMC_STAT s) = true) ->
  p (Sleep 0.1) = true ->
  (forall f a, p (LogError f a) = true) ->
  forallb p (trace (_option_erase fuel w)) = true.
Proof.
  intros Hu He Hread Hsleep Hlog. rewrite option_erase_eq.
  pose proof (forallb_busy_poll p fuel (timeout_at (erase_entry w))
                (erase_entry w) Hread Hsleep) as Hp.
  destruct (busy_poll fuel (timeout_at (erase_entry w)) (erase_entry w))
    as [[r w1] t].
  unfold trace, snd in Hp.
  destruct r as [[|]| |]; unfold trace, snd;
    rewrite ?forallb_app, Hu, He, Hp; simpl; rewrite ?Hlog; reflexivity.
Qed.

(** The same for the locked branch of [mass_erase], after its two reads. *)
Lemma mass_erase_locked_forall (p : event -> bool) (fuel : nat)
    (w w1 w2 : W) (st v : Z) :
  target_read32 FMC_OBSTAT w = (st, w1) ->
  Z.testbit st 1 = true ->
  target_read16 0x1FFFF802 w1 = (v, w2) ->
  forallb p unlock_writes = true ->
  forallb p erase_triggers = true ->
  forallb p (program_writes v) = true ->
  (forall s, p (Read32 FMC_STAT s) = true) ->
  p (Sleep 0.1) = true ->
  (forall f a, p (LogError f a) = true) ->
  exists rest,
    trace (mass_erase fuel w)
      = Read32 FMC_OBSTAT st :: Read16 0x1FFFF802 v :: rest
    /\ forallb p rest = true.
Proof.
  intros Hr Hb Hv Hu He Hpw Hread Hsleep Hlog.
  rewrite (mass_erase_locked_eq fuel w w1 w2 st v Hr Hb Hv). cbv zeta.
  pose proof (option_erase_forall p fuel w2 Hu He Hread Hsleep Hlog) as H1.
  destruct (_option_erase fuel w2) as [[r w3] t1]. unfold trace, snd in H1.
  destruct r as [ok| |].
  - destruct (truthy ok).
    + pose proof (forallb_busy_poll p fuel (timeout_at (program_entry v w3))
                    (program_entry v w3) Hread Hsleep) as H2.
      destruct (busy_poll fuel (timeout_at (program_entry v w3))
                  (program_entry v w3)) as [[r2 w5] t2].
      unfold trace, snd in H2.
      destruct r2 as [[|]| |]; eexists; (split; [reflexivity|]);
        rewrite ?forallb_app, H1, Hu, Hpw, H2; simpl; rewrite ?Hlog;
        reflexivity.
    + eexists. split; [reflexivity|].
      rewrite forallb_app, H1. simpl. rewrite Hlog. reflexivity.
  - eexists. split; [reflexivity|]. exact H1.
  - eexists. split; [reflexivity|]. exact H1.
Qed.

End AnyRun.

(** ** What the methods touch *)

(** X1: whatever the device, the clock and the fuel, every event of
    [mass_erase] is one of the module's accesses: it reads only the
    option-byte-status register, the status register and the user halfword,
    writes only the two key registers, the control register and the two
    option halfwords, sleeps only the poll interval, and calls the
    collaborator only in chip mode with logging off. *)
Theorem mass_erase_access_frame :
  forall (W : Type) (T : Target W) (fuel : nat) (w : W),
    forallb allowed_access (trace (mass_erase fuel w)) = true.
Proof.
  intros W T fuel w.
  destruct (target_read32 FMC_OBSTAT w) as [st w1] eqn:Hr.
  destruct (Z.testbit st 1) eqn:Hb.
  - destruct (target_read16 0x1FFFF802 w1) as [v w2] eqn:Hv.
    destruct (mass_erase_locked_forall allowed_access fuel w w1 w2 st v
                Hr Hb Hv) as (rest & Ht & Hrest);
      try reflexivity.
    rewrite Ht. simpl. exact Hrest.
  - rewrite (mass_erase_unlocked_eq fuel w w1 st Hr Hb). reflexivity.
Qed.

(** X2: on the locked branch, whatever the clock and the fuel, after the
    lock query and the read of the user halfword [mass_erase] neither
    touches the option-byte-status register again nor calls the chip-erase
    collaborator: it does not check that the protection was cleared. *)
Theorem mass_erase_locked_no_requery :
  forall (W : Type) (T : Target W) (fuel : nat) (w w1 w2 : W) (st v : Z),
    target_read32 FMC_OBSTAT w = (st, w1) ->
    Z.testbit st 1 = true ->
    target_read16 0x1FFFF802 w1 = (v, w2) ->
    exists rest,
      trace (mass_erase fuel w)
        = Read32 FMC_OBSTAT st :: Read16 0x1FFFF802 v :: rest
      /\ forallb no_requery rest = true.
Proof.
  intros W T fuel w w1 w2 st v Hr Hb Hv.
  apply (mass_erase_locked_forall no_requery fuel w w1 w2 st v Hr Hb Hv);
    reflexivity.
Qed.

Lemma mass_erase_locked_no_requery_witness :
  target_read32 FMC_OBSTAT sim_stuck = (0x02, sim_stuck)
  /\ Z.testbit 0x02 1 = true
  /\ target_read16 0x1FFFF802 sim_stuck = (0xABCD, sim_stuck)
  /\ exists rest,
      trace (mass_erase 7 sim_stuck)
        = Read32 FMC_OBSTAT 0x02 :: Read16 0x1FFFF802 0xABCD :: rest
      /\ forallb no_requery rest = true.
Proof.
  split; [reflexivity|]. split; [reflexivity|]. split; [reflexivity|].
  apply (mass_erase_locked_no_requery sim sim_target 7
           sim_stuck sim_stuck sim_stuck 0x02 0xABCD); reflexivity.
Defined.

(** X3: the register writes of a complete locked run, in order.  When the
    option-byte erase succeeds they are the four key writes, 0x220 and 0x260
    to the control register, the four key writes again, 0x210 to the control
    register, 0x5AA5 to 0x1FFFF800 and the saved halfword to 0x1FFFF802,
    whether or not the final poll times out; when the erase fails they are
    the first six only. *)
Theorem mass_erase_write_sequence :
  forall (W : Type) (T : Target W) (L : ClockLaws W) (fuel : nat)
         (w w1 w2 : W) (st v : Z),
    (100 < fuel)%nat ->
    target_read32 FMC_OBSTAT w = (st, w1) ->
    Z.testbit st 1 = true ->
    target_read16 0x1FFFF802 w1 = (v, w2) ->
    let tr := trace (mass_erase fuel w) in
    (result (_option_erase fuel w2) = Done (PyBool true) ->
       filter is_write tr
       = unlock_writes
           ++ [Write32 FMC_CTL 0x220; Write32 FMC_CTL 0x260]
           ++ unlock_writes
           ++ [Write32 FMC_CTL 0x210; Write16 0x1FFFF800 0x5AA5;
               Write16 0x1FFFF802 v]
       /\ writes_to FMC_CTL tr = [0x220; 0x260; 0x210])
    /\ (result (_option_erase fuel w2) = Done (PyBool false) ->
       filter is_write tr
       = unlock_writes ++ [Write32 FMC_CTL 0x220; Write32 FMC_CTL 0x260]
       /\ writes_to FMC_CTL tr = [0x220; 0x260]).
Proof.
  intros W T L fuel w w1 w2 st v Hfuel Hr Hb Hu tr.
  destruct (mass_erase_locked_run fuel w w1 w2 st v Hfuel Hr Hb Hu)
    as (busy1 & last1 & busy2 & last2 & w3 & w' & He & Hm & _ & _).
  subst tr. rewrite Hm, He. unfold trace, result, fst, snd.
  set (pn := target_part_number w'). clearbody pn.
  destruct last1 as [s1|]; cbn [found_clear]; split; intros Hres;
    try discriminate Hres; split; observe.
Qed.

Lemma mass_erase_write_sequence_witness :
  (100 < 101)%nat
  /\ target_read32 FMC_OBSTAT sim_recovering = (0x02, sim_recovering)
  /\ Z.testbit 0x02 1 = true
  /\ target_read16 0x1FFFF802 sim_recovering = (0xABCD, sim_recovering)
  /\ result (_option_erase 101 sim_recovering) = Done (PyBool true)
  /\ filter is_write (trace (mass_erase 101 sim_recovering))
     = unlock_writes
         ++ [Write32 FMC_CTL 0x220; Write32 FMC_CTL 0x260]
         ++ unlock_writes
         ++ [Write32 FMC_CTL 0x210; Write16 0x1FFFF800 0x5AA5;
             Write16 0x1FFFF802 0xABCD].
Proof.
  split; [lia|]. split; [reflexivity|]. split; [reflexivity|].
  split; [reflexivity|]. split; [vm_compute; reflexivity|].
  pose proof (mass_erase_write_sequence sim sim_target sim_clock_laws 101
                sim_recovering sim_recovering sim_recovering 0x02 0xABCD)
    as Hthm.
  cbv zeta in Hthm.
  destruct Hthm as (Hok & _); [lia|reflexivity|reflexivity|reflexivity|].
  apply Hok. vm_compute. reflexivity.
Defined.

(** ** The poll at its edges *)

Section PollEdges.

Context {W : Type} `{Target W}.

(** A timeout is never expired in the world in which it was entered. *)
Lemma fresh_timeout_open (w : W) :
  expired (timeout_at w) (clock_time w) = false.
Proof.
  unfold expired, elapsed, timeout_at. simpl.
  destruct (Qle_bool FLASH_ERASE_TIMEOUT (clock_time w - clock_time w)) eqn:He;
    [|reflexivity].
  apply Qle_bool_iff in He. unfold FLASH_ERASE_TIMEOUT in He. lra.
Qed.

Lemma busy_poll_idle (fuel : nat) (w w' : W) (s : Z) :
  target_read32 FMC_STAT w = (s, w') ->
  Z.testbit s 0 = false ->
  busy_poll (S fuel) (timeout_at w) w = (Done Break, w', [Read32 FMC_STAT s]).
Proof.
  intros Hread Hidle.
  rewrite busy_poll_step, fresh_timeout_open, Hread, busy_set_bit0, Hidle.
  reflexivity.
Qed.

(** A poll that ran into its timeout ends in a world whose clock is past
    the deadline. *)
Lemma busy_poll_exhausted_late (fuel : nat) (to : Timeout) (w w' : W)
    (t : list event) :
  busy_poll fuel to w = (Done Exhausted, w', t) ->
  (_timeout to <= clock_time w' - _start to)%Q.
Proof.
  revert w t. induction fuel as [|fuel IH]; intros w t Hp.
  - discriminate Hp.
  - rewrite busy_poll_step in Hp.
    destruct (expired to (clock_time w)) eqn:He.
    + injection Hp as <- _. apply Qle_bool_iff in He. exact He.
    + destruct (target_read32 FMC_STAT w) as [s w1].
      destruct (busy_set s); [|discriminate Hp].
      destruct (busy_poll fuel to (clock_sleep 0.1 w1)) as [[r w2] t2] eqn:Hq.
      injection Hp as -> -> _. exact (IH _ _ Hq).
Qed.

(** While the controller stays busy and the clock stands still, a poll that
    has not expired uses up any fuel. *)
Lemma busy_poll_starves (P : W -> Prop) (to : Timeout) :
  (forall w, P w ->
     Z.testbit (fst (target_read32 FMC_STAT w)) 0 = true
     /\ P (clock_sleep 0.1 (snd (target_read32 FMC_STAT w)))
     /\ (clock_time (clock_sleep 0.1 (snd (target_read32 FMC_STAT w)))
         == clock_time w)%Q) ->
  forall (fuel : nat) (w : W),
    P w -> expired to (clock_time w) = false ->
    exists w', busy_poll fuel to w
               = (OutOfFuel, w', trace (busy_poll fuel to w)).
Proof.
  intros Hinv fuel. induction fuel as [|fuel IH]; intros w HP Hopen.
  - exists w. reflexivity.
  - rewrite busy_poll_step, Hopen.
    destruct (Hinv w HP) as (Hbusy & HP' & Hclock).
    destruct (target_read32 FMC_STAT w) as [s w1].
    cbn [fst snd] in Hbusy, HP', Hclock.
    rewrite busy_set_bit0, Hbusy.
    assert (Hopen' : expired to (clock_time (clock_sleep 0.1 w1)) = false).
    { destruct (expired to (clock_time (clock_sleep 0.1 w1))) eqn:He;
        [|reflexivity].
      assert (Hexp : expired to (clock_time w) = true).
      { unfold expired, elapsed in *. apply Qle_bool_iff.
        apply Qle_bool_iff in He. lra. }
      congruence. }
    destruct (IH _ HP' Hopen') as (w' & Hq). rewrite Hq.
    exists w'. reflexivity.
Qed.

End PollEdges.

(** X4: on a locked device whose controller shows idle at the first status
    read of each poll, [mass_erase] returns None without sleeping, with any
    fuel and any clock: its events are the two reads, the erase sequence,
    one status read, the programming sequence and one status read. *)
Theorem mass_erase_idle_fast_path :
  forall (W : Type) (T : Target W) (fuel : nat)
         (w w1 w2 w3 w4 : W) (st v s1 s2 : Z),
    target_read32 FMC_OBSTAT w = (st, w1) ->
    Z.testbit st 1 = true ->
    target_read16 0x1FFFF802 w1 = (v, w2) ->
    target_read32 FMC_STAT (erase_entry w2) = (s1, w3) ->
    Z.testbit s1 0 = false ->
    target_read32 FMC_STAT (program_entry v w3) = (s2, w4) ->
    Z.testbit s2 0 = false ->
    _option_erase (S fuel) w2
      = (Done (PyBool true), w3,
         unlock_writes ++ erase_triggers ++ [Read32 FMC_STAT s1])
    /\ mass_erase (S fuel) w
      = (Done PyNone, w4,
         [Read32 FMC_OBSTAT st; Read16 0x1FFFF802 v]
           ++ unlock_writes ++ erase_triggers ++ [Read32 FMC_STAT s1]
           ++ unlock_writes ++ program_writes v ++ [Read32 FMC_STAT s2]).
Proof.
  intros W T fuel w w1 w2 w3 w4 st v s1 s2 Hr Hb Hv Hs1 Hi1 Hs2 Hi2.
  assert (He : _option_erase (S fuel) w2
               = (Done (PyBool true), w3,
                  unlock_writes ++ erase_triggers ++ [Read32 FMC_STAT s1])).
  { rewrite option_erase_eq, (busy_poll_idle fuel _ _ _ Hs1 Hi1).
    reflexivity. }
  split; [exact He|].
  rewrite (mass_erase_locked_eq (S fuel) w w1 w2 st v Hr Hb Hv), He.
  cbv zeta. cbn [truthy].
  rewrite (busy_poll_idle fuel _ _ _ Hs2 Hi2).
  rewrite <- !app_assoc. reflexivity.
Qed.

Lemma mass_erase_idle_fast_path_witness :
  target_read32 FMC_OBSTAT sim_idle = (0x02, sim_idle)
  /\ Z.testbit 0x02 1 = true
  /\ target_read16 0x1FFFF802 sim_idle = (0xABCD, sim_idle)
  /\ Z.testbit 0 0 = false
  /\ result (mass_erase 1 sim_idle) = Done PyNone
  /\ total_sleep (trace (mass_erase 1 sim_idle)) = 0%Q.
Proof.
  split; [reflexivity|]. split; [reflexivity|]. split; [reflexivity|].
  split; [reflexivity|].
  pose proof (mass_erase_idle_fast_path sim sim_target 0
                sim_idle sim_idle sim_idle
                (snd (target_read32 FMC_STAT (erase_entry sim_idle)))
                (snd (target_read32 FMC_STAT
                        (program_entry 0xABCD
                           (snd (target_read32 FMC_STAT
                                   (erase_entry sim_idle))))))
                0x02 0xABCD 0 0) as Hthm.
  destruct Hthm as (_ & Hrun); try (vm_compute; reflexivity).
  rewrite Hrun. split; vm_compute; reflexivity.
Defined.

(** X5: a failure is never reported early.  Whatever the clock and the
    fuel, when [_option_erase] returns False the clock of the world it
    leaves is at least the full timeout past the entry of its poll; and when
    [mass_erase], its erase having succeeded, raises, the clock is at least
    the full timeout past the entry of the final poll. *)
Theorem failure_only_after_timeout :
  forall (W : Type) (T : Target W) (fuel : nat),
    (forall (w w' : W) (t : list event),
        _option_erase fuel w = (Done (PyBool false), w', t) ->
        (FLASH_ERASE_TIMEOUT
           <= clock_time w' - clock_time (erase_entry w))%Q)
    /\ (forall (w w1 w2 w3 w' : W) (st v : Z) (t1 t : list event) (e : exn),
        target_read32 FMC_OBSTAT w = (st, w1) ->
        Z.testbit st 1 = true ->
        target_read16 0x1FFFF802 w1 = (v, w2) ->
        _option_erase fuel w2 = (Done (PyBool true), w3, t1) ->
        mass_erase fuel w = (Raised e, w', t) ->
        e = TargetError "unable to unlock device"
        /\ (FLASH_ERASE_TIMEOUT
              <= clock_time w' - clock_time (program_entry v w3))%Q).
Proof.
  intros W T fuel. split.
  - intros w w' t He. rewrite option_erase_eq in He.
    destruct (busy_poll fuel (timeout_at (erase_entry w)) (erase_entry w))
      as [[r w1] t1] eqn:Hp.
    destruct r as [[|]| |]; try discriminate He.
    injection He as <- _.
    exact (busy_poll_exhausted_late _ _ _ _ _ Hp).
  - intros w w1 w2 w3 w' st v t1 t e Hr Hb Hv He Hm.
    rewrite (mass_erase_locked_eq fuel w w1 w2 st v Hr Hb Hv), He in Hm.
    cbv zeta in Hm. cbn [truthy] in Hm.
    pose proof (busy_poll_no_raise fuel (timeout_at (program_entry v w3))
                  (program_entry v w3)) as Hnr.
    destruct (busy_poll fuel (timeout_at (program_entry v w3))
                (program_entry v w3)) as [[r w5] t2] eqn:Hp.
    destruct r as [[|]|x|]; try discriminate Hm.
    + injection Hm as <- <- _. split; [reflexivity|].
      exact (busy_poll_exhausted_late _ _ _ _ _ Hp).
    + exfalso. apply (Hnr x). reflexivity.
Qed.

Lemma failure_only_after_timeout_witness :
  _option_erase 101 sim_stuck
    = (Done (PyBool false), final (_option_erase 101 sim_stuck),
       trace (_option_erase 101 sim_stuck))
  /\ (FLASH_ERASE_TIMEOUT
        <= clock_time (final (_option_erase 101 sim_stuck))
           - clock_time (erase_entry sim_stuck))%Q.
Proof.
  assert (Hrun : _option_erase 101 sim_stuck
                 = (Done (PyBool false), final (_option_erase 101 sim_stuck),
                    trace (_option_erase 101 sim_stuck)))
    by (vm_compute; reflexivity).
  split; [exact Hrun|].
  exact (proj1 (failure_only_after_timeout sim sim_target 101) _ _ _ Hrun).
Defined.

(** X6: the loop has no bound of its own besides the clock.  On a target
    that keeps the busy bit set and whose clock does not move across a
    status read and a sleep, [_option_erase] never returns: it uses up any
    fuel. *)
Theorem option_erase_needs_clock :
  forall (W : Type) (T : Target W) (P : W -> Prop),
    (forall w, P w ->
       Z.testbit (fst (target_read32 FMC_STAT w)) 0 = true
       /\ P (clock_sleep 0.1 (snd (target_read32 FMC_STAT w)))
       /\ (clock_time (clock_sleep 0.1 (snd (target_read32 FMC_STAT w)))
           == clock_time w)%Q) ->
    forall (fuel : nat) (w : W),
      P (erase_entry w) ->
      result (_option_erase fuel w) = OutOfFuel.
Proof.
  intros W T P Hinv fuel w HP.
  destruct (busy_poll_starves P (timeout_at (erase_entry w)) Hinv fuel
              (erase_entry w) HP (fresh_timeout_open _)) as (w' & Hq).
  rewrite option_erase_eq, Hq. reflexivity.
Qed.

Lemma option_erase_needs_clock_witness :
  (forall h : halted,
      Z.testbit (fst (target_read32 FMC_STAT h)) 0 = true
      /\ (clock_time (clock_sleep 0.1 (snd (target_read32 FMC_STAT h)))
          == clock_time h)%Q)
  /\ result (_option_erase 1000 Halted) = OutOfFuel.
Proof.
  split.
  - intros h. split; reflexivity.
  - apply (option_erase_needs_clock halted halted_target (fun _ => True));
      [|exact I].
    intros h _. split; [reflexivity|]. split; [exact I|reflexivity].
Defined.

(** ** Time asked of [sleep] *)

Lemma total_sleep_app (t1 t2 : list event) :
  (total_sleep (t1 ++ t2) == total_sleep t1 + total_sleep t2)%Q.
Proof.
  induction t1 as [|e t1 IH]; simpl.
  - lra.
  - destruct e; try exact IH. rewrite IH. lra.
Qed.

Lemma total_sleep_poll (busy : list Z) (last : option Z) :
  (total_sleep (poll_shape busy last) == budget (List.length busy))%Q.
Proof.
  induction busy as [|s busy IH].
  - destruct last; reflexivity.
  - rewrite poll_shape_cons.
    change (total_sleep (Read32 FMC_STAT s :: Sleep 0.1 :: poll_shape busy last))
      with (0.1 + total_sleep (poll_shape busy last))%Q.
    change (budget (List.length (s :: busy)))
      with (budget (List.length busy) + 0.1)%Q.
    rewrite IH. lra.
Qed.

Lemma budget_mono (n m : nat) : (n <= m)%nat -> (budget n <= budget m)%Q.
Proof.
  induction 1 as [|m Hle IH]; [apply Qle_refl|].
  change (budget (S m)) with (budget m + 0.1)%Q. lra.
Qed.

Lemma total_sleep_poll_ok (busy : list Z) (last : option Z) :
  poll_ok 100 busy last ->
  (total_sleep (poll_shape busy last) <= FLASH_ERASE_TIMEOUT)%Q.
Proof.
  intros (_ & _ & Hn). rewrite status_reads_poll_shape in Hn.
  rewrite total_sleep_poll, <- budget_100. apply budget_mono. lia.
Qed.

Lemma total_sleep_erase_trace (busy : list Z) (last : option Z) :
  (total_sleep (erase_trace busy last)
   == total_sleep (poll_shape busy last))%Q.
Proof.
  unfold erase_trace. rewrite !total_sleep_app.
  change (total_sleep unlock_writes) with 0%Q.
  change (total_sleep erase_triggers) with 0%Q.
  destruct last; cbn [found_clear];
    [change (total_sleep []) with 0%Q
    |change (total_sleep [LogError _ _]) with 0%Q]; lra.
Qed.

Lemma total_sleep_program_trace (v : Z) (pn : string)
    (busy : list Z) (last : option Z) :
  (total_sleep (program_trace v pn busy last)
   == total_sleep (poll_shape busy last))%Q.
Proof.
  unfold program_trace. rewrite !total_sleep_app.
  change (total_sleep unlock_writes) with 0%Q.
  change (total_sleep (program_writes v)) with 0%Q.
  destruct last; cbn [found_clear];
    [change (total_sleep []) with 0%Q
    |change (total_sleep [LogError _ _]) with 0%Q]; lra.
Qed.

(** X7: with a lawful clock, [_option_erase] asks [sleep] for no more than
    the timeout and one poll interval in all, 10.0 + 0.1 units (a sleep begun
    before the deadline may run past it), and [mass_erase] for no more than
    twice that, on either branch and however the run ends. *)
Theorem total_sleep_bounded :
  forall (W : Type) (T : Target W) (L : ClockLaws W) (fuel : nat) (w : W),
    (100 < fuel)%nat ->
    (total_sleep (trace (_option_erase fuel w))
       <= FLASH_ERASE_TIMEOUT + 0.1)%Q
    /\ (total_sleep (trace (mass_erase fuel w))
          <= 2 * (FLASH_ERASE_TIMEOUT + 0.1))%Q.
Proof.
  intros W T L fuel w Hfuel. unfold FLASH_ERASE_TIMEOUT. split.
  - destruct (option_erase_run fuel w Hfuel) as (busy & last & w' & He & Hok).
    rewrite He. unfold trace, snd. rewrite total_sleep_erase_trace.
    pose proof (total_sleep_poll_ok _ _ Hok) as H1.
    unfold FLASH_ERASE_TIMEOUT in H1. lra.
  - destruct (target_read32 FMC_OBSTAT w) as [st w1] eqn:Hr.
    destruct (Z.testbit st 1) eqn:Hb.
    + destruct (target_read16 0x1FFFF802 w1) as [v w2] eqn:Hu.
      destruct (mass_erase_locked_run fuel w w1 w2 st v Hfuel Hr Hb Hu)
        as (busy1 & last1 & busy2 & last2 & w3 & w' & _ & Hm & Hok1 & Hok2).
      rewrite Hm. unfold trace, snd, locked_trace.
      pose proof (total_sleep_poll_ok _ _ Hok1) as H1.
      pose proof (total_sleep_poll_ok _ _ Hok2) as H2.
      unfold FLASH_ERASE_TIMEOUT in H1, H2.
      rewrite !total_sleep_app, total_sleep_erase_trace.
      change (total_sleep [Read32 FMC_OBSTAT st; Read16 0x1FFFF802 v])
        with 0%Q.
      destruct (found_clear last1).
      * rewrite total_sleep_program_trace. lra.
      * change (total_sleep [LogError _ _]) with 0%Q. lra.
    + rewrite (mass_erase_unlocked_eq fuel w w1 st Hr Hb). cbv zeta.
      unfold trace, snd. simpl. lra.
Qed.

Lemma total_sleep_bounded_witness :
  (100 < 101)%nat
  /\ (total_sleep (trace (_option_erase 101 sim_stuck))
        <= FLASH_ERASE_TIMEOUT + 0.1)%Q
  /\ (total_sleep (trace (mass_erase 101 sim_stuck))
        <= 2 * (FLASH_ERASE_TIMEOUT + 0.1))%Q.
Proof.
  split; [lia|].
  apply (total_sleep_bounded sim sim_target sim_clock_laws 101 sim_stuck).
  lia.
Defined.

(** ** The option-byte erase against the device *)

Section EraseAgainstDevice.

Context {W : Type} `{Target W}.

(** If the device reads busy in the first [k] rounds and the timeout has
    expired at the next test, the loop is left through its [else]. *)
Lemma busy_poll_exhausts_at (k fuel : nat) (to : Timeout) (w : W) :
  (k < fuel)%nat ->
  rounds_busy to k w = true ->
  expired to (clock_time (poll_world k w)) = true ->
  busy_poll fuel to w
  = (Done Exhausted, poll_world k w, poll_shape (poll_statuses k w) None).
Proof.
  revert fuel w. induction k as [|k IH]; intros fuel w Hfuel Hbusy Hexp;
    (destruct fuel as [|fuel]; [lia|]); rewrite busy_poll_step.
  - simpl in Hexp. rewrite Hexp. reflexivity.
  - cbn [rounds_busy] in Hbusy.
    apply andb_true_iff in Hbusy. destruct Hbusy as [Hbusy Hrest].
    apply andb_true_iff in Hbusy. destruct Hbusy as [Hopen Hbit].
    apply negb_true_iff in Hopen. rewrite Hopen.
    cbn [poll_world poll_statuses] in *. unfold next_round in *.
    destruct (target_read32 FMC_STAT w) as [s w1]. cbn [fst snd] in *.
    rewrite busy_set_bit0, Hbit.
    rewrite (IH fuel (clock_sleep 0.1 w1)) by (assumption || lia).
    reflexivity.
Qed.

(** If the device reads busy in the first [k] rounds and idle in the next,
    before the timeout has expired, the loop is left by [break]. *)
Lemma busy_poll_breaks_at (k fuel : nat) (to : Timeout) (w : W) :
  (k < fuel)%nat ->
  rounds_busy to k w = true ->
  expired to (clock_time (poll_world k w)) = false ->
  Z.testbit (fst (target_read32 FMC_STAT (poll_world k w))) 0 = false ->
  busy_poll fuel to w
  = (Done Break, snd (target_read32 FMC_STAT (poll_world k w)),
     poll_shape (poll_statuses k w)
       (Some (fst (target_read32 FMC_STAT (poll_world k w))))).
Proof.
  revert fuel w. induction k as [|k IH]; intros fuel w Hfuel Hbusy Hopen Hidle;
    (destruct fuel as [|fuel]; [lia|]); rewrite busy_poll_step.
  - cbn [poll_world poll_statuses] in *. rewrite Hopen.
    destruct (target_read32 FMC_STAT w) as [s w1]. cbn [fst snd] in *.
    rewrite busy_set_bit0, Hidle. reflexivity.
  - cbn [rounds_busy] in Hbusy.
    apply andb_true_iff in Hbusy. destruct Hbusy as [Hbusy Hrest].
    apply andb_true_iff in Hbusy. destruct Hbusy as [Hopen0 Hbit].
    apply negb_true_iff in Hopen0. rewrite Hopen0.
    cbn [poll_world poll_statuses] in *. unfold next_round in *.
    destruct (target_read32 FMC_STAT w) as [s w1]. cbn [fst snd] in *.
    rewrite busy_set_bit0, Hbit.
    rewrite (IH fuel (clock_sleep 0.1 w1)) by (assumption || lia).
    reflexivity.
Qed.

(** How a poll that returned was left, read off its events. *)
Lemma busy_poll_done (fuel : nat) (to : Timeout) (w w' : W)
    (ex : loop_exit) (t : list event) :
  busy_poll fuel to w = (Done ex, w', t) ->
  exists busy last,
    t = poll_shape busy last
    /\ ex = exit_of last
    /\ Forall (fun s => Z.testbit s 0 = true) busy
    /\ (forall s, last = Some s -> Z.testbit s 0 = false).
Proof.
  intros Hp.
  destruct (busy_poll_shape fuel to w) as (busy & last & Ht & Hf & Hl & Hr).
  rewrite Hp in Ht, Hr. unfold trace, result, fst, snd in Ht, Hr.
  exists busy, last. split; [exact Ht|]. split.
  - destruct Hr as [Hr|[Hr _]]; [injection Hr as ->; reflexivity|discriminate].
  - split.
    + eapply Forall_impl; [|exact Hf].
      intros s Hs. rewrite <- busy_set_bit0. exact Hs.
    + intros s Hs. rewrite <- busy_set_bit0. apply Hl. exact Hs.
Qed.

(** The register writes of [_option_erase], whatever the fuel and clock. *)
Lemma option_erase_writes (fuel : nat) (w : W) :
  filter is_write (trace (_option_erase fuel w))
  = unlock_writes ++ [Write32 FMC_CTL 0x220; Write32 FMC_CTL 0x260]
  /\ writes_to FMC_CTL (trace (_option_erase fuel w)) = [0x220; 0x260].
Proof.
  rewrite option_erase_eq.
  destruct (busy_poll_shape fuel (timeout_at (erase_entry w)) (erase_entry w))
    as (busy & last & Ht & _).
  destruct (busy_poll fuel (timeout_at (erase_entry w)) (erase_entry w))
    as [[r w1] t].
  unfold trace, snd in Ht. subst t.
  destruct r as [[|]| |]; unfold trace, snd;
    rewrite ?filter_app, ?writes_to_app, filter_write_poll, writes_to_poll;
    split; reflexivity.
Qed.

Lemma option_erase_no_raise (fuel : nat) (w : W) (e : exn) :
  result (_option_erase fuel w) <> Raised e.
Proof.
  rewrite option_erase_eq.
  pose proof (busy_poll_no_raise fuel (timeout_at (erase_entry w))
                (erase_entry w)) as Hnr.
  destruct (busy_poll fuel (timeout_at (erase_entry w)) (erase_entry w))
    as [[r w1] t].
  destruct r as [[|]|x|]; try discriminate.
  exfalso. apply (Hnr x). reflexivity.
Qed.

End EraseAgainstDevice.

(** C2: [_option_erase] writes the control register 0x40022010 exactly
    twice, 0x220 (erase | write-enable) and then 0x260 (with start); these
    and the four key writes before them are all its register writes, and it
    never raises.  It then polls the status register 0x4002200C of the
    device, round by round.  If the device reads busy (bit 0 set) in every
    round until the timeout has expired, the call returns False, having
    logged an error after its last poll event and written nothing more.  If
    the device reads busy in [k] rounds and idle in the next, before the
    timeout has expired, the call returns True right after that read.
    Conversely a False comes only with the full timeout elapsed and every
    status read busy, a True only with the last status read idle; and with a
    lawful clock the call does return a boolean. *)
Theorem option_erase_spec :
  forall (W : Type) (T : Target W) (fuel : nat) (w : W),
    let w0 := erase_entry w in
    let to := timeout_at w0 in
    let r := _option_erase fuel w in
    let triggers := [Write32 FMC_CTL 0x220; Write32 FMC_CTL 0x260] in
    let timeout_log := LogError "Option byte erase timeout" [] in
    FMC_CTL = 0x40022010 /\ FMC_STAT = 0x4002200C
    /\ _timeout to = 10%Q
    /\ writes_to FMC_CTL (trace r) = [0x220; 0x260]
    /\ filter is_write (trace r) = unlock_writes ++ triggers
    /\ (forall e, result r <> Raised e)
    /\ (forall k,
          (k < fuel)%nat ->
          rounds_busy to k w0 = true ->
          expired to (clock_time (poll_world k w0)) = true ->
          r = (Done (PyBool false), poll_world k w0,
               unlock_writes ++ triggers
                 ++ poll_shape (poll_statuses k w0) None ++ [timeout_log]))
    /\ (forall k,
          (k < fuel)%nat ->
          rounds_busy to k w0 = true ->
          expired to (clock_time (poll_world k w0)) = false ->
          Z.testbit (fst (target_read32 FMC_STAT (poll_world k w0))) 0 = false ->
          r = (Done (PyBool true),
               snd (target_read32 FMC_STAT (poll_world k w0)),
               unlock_writes ++ triggers
                 ++ poll_shape (poll_statuses k w0)
                      (Some (fst (target_read32 FMC_STAT (poll_world k w0))))))
    /\ (forall w' t,
          r = (Done (PyBool false), w', t) ->
          (FLASH_ERASE_TIMEOUT <= clock_time w' - clock_time w0)%Q
          /\ Forall (fun s => Z.testbit s 0 = true) (reads_from FMC_STAT t)
          /\ exists busy,
               t = unlock_writes ++ triggers
                     ++ poll_shape busy None ++ [timeout_log])
    /\ (forall w' t,
          r = (Done (PyBool true), w', t) ->
          exists busy s,
            Forall (fun s => Z.testbit s 0 = true) busy
            /\ Z.testbit s 0 = false
            /\ reads_from FMC_STAT t = busy ++ [s]
            /\ t = unlock_writes ++ triggers ++ poll_shape busy (Some s))
    /\ (forall L : ClockLaws W,
          exists n, forall fuel', (n < fuel')%nat ->
            exists b w' t, _option_erase fuel' w = (Done (PyBool b), w', t)).
Proof.
  intros W T fuel w w0 to r triggers timeout_log.
  split; [reflexivity|]. split; [reflexivity|]. split; [reflexivity|].
  split; [exact (proj2 (option_erase_writes fuel w))|].
  split; [exact (proj1 (option_erase_writes fuel w))|].
  split; [intros e; apply option_erase_no_raise|].
  split; [|split; [|split; [|split]]].
  - intros k Hk Hbusy Hexp. subst r. rewrite option_erase_eq.
    fold w0. fold to. rewrite (busy_poll_exhausts_at k fuel to w0 Hk Hbusy Hexp).
    reflexivity.
  - intros k Hk Hbusy Hopen Hidle. subst r. rewrite option_erase_eq.
    fold w0. fold to.
    rewrite (busy_poll_breaks_at k fuel to w0 Hk Hbusy Hopen Hidle).
    reflexivity.
  - intros w' t Hr. subst r. rewrite option_erase_eq in Hr.
    fold w0 in Hr. fold to in Hr.
    destruct (busy_poll fuel to w0) as [[rp w1] t1] eqn:Hp.
    destruct rp as [[|]| |]; try discriminate Hr.
    injection Hr as <- <-.
    destruct (busy_poll_done fuel to w0 w1 Exhausted t1 Hp)
      as (busy & last & -> & Hex & Hf & _).
    destruct last as [s|]; [discriminate Hex|].
    split; [exact (busy_poll_exhausted_late fuel to w0 w1 _ Hp)|]. split.
    + change (Forall (fun s => Z.testbit s 0 = true)
                (reads_from FMC_STAT (poll_shape busy None ++ [timeout_log]))).
      rewrite reads_from_app, reads_from_poll_status.
      change (reads_from FMC_STAT [timeout_log]) with (@nil Z).
      unfold closing_read. rewrite !app_nil_r. exact Hf.
    + exists busy. reflexivity.
  - intros w' t Hr. subst r. rewrite option_erase_eq in Hr.
    fold w0 in Hr. fold to in Hr.
    destruct (busy_poll fuel to w0) as [[rp w1] t1] eqn:Hp.
    destruct rp as [[|]| |]; try discriminate Hr.
    injection Hr as <- <-.
    destruct (busy_poll_done fuel to w0 w1 Break t1 Hp)
      as (busy & last & -> & Hex & Hf & Hl).
    destruct last as [s|]; [|discriminate Hex].
    exists busy, s. split; [exact Hf|]. split; [exact (Hl s eq_refl)|]. split.
    + change (reads_from FMC_STAT (poll_shape busy (Some s)) = busy ++ [s]).
      apply reads_from_poll_status.
    + reflexivity.
  - intros L. exists 100%nat. intros fuel' Hfuel'.
    destruct (option_erase_run fuel' w Hfuel') as (busy & last & w' & He & _).
    exists (found_clear last), w', (erase_trace busy last). exact He.
Qed.

Lemma option_erase_spec_witness :
  ((1 < 101)%nat
   /\ rounds_busy (timeout_at (erase_entry sim_recovering)) 1
        (erase_entry sim_recovering) = true
   /\ expired (timeout_at (erase_entry sim_recovering))
        (clock_time (poll_world 1 (erase_entry sim_recovering))) = false
   /\ Z.testbit
        (fst (target_read32 FMC_STAT
                (poll_world 1 (erase_entry sim_recovering)))) 0 = false
   /\ result (_option_erase 101 sim_recovering) = Done (PyBool true)
   /\ reads_from FMC_STAT (trace (_option_erase 101 sim_recovering)) = [1; 0])
  /\ ((100 < 101)%nat
      /\ rounds_busy (timeout_at (erase_entry sim_stuck)) 100
           (erase_entry sim_stuck) = true
      /\ expired (timeout_at (erase_entry sim_stuck))
           (clock_time (poll_world 100 (erase_entry sim_stuck))) = true
      /\ result (_option_erase 101 sim_stuck) = Done (PyBool false)).
Proof.
  split.
  - split; [lia|]. split; [vm_compute; reflexivity|].
    split; [vm_compute; reflexivity|]. split; [vm_compute; reflexivity|].
    pose proof (option_erase_spec sim sim_target 101 sim_recovering) as Hthm.
    cbv zeta in Hthm.
    destruct Hthm as (_ & _ & _ & _ & _ & _ & _ & Htrue & _).
    rewrite (Htrue 1%nat); [split; vm_compute; reflexivity|lia| | |];
      vm_compute; reflexivity.
  - split; [lia|]. split; [vm_compute; reflexivity|].
    split; [vm_compute; reflexivity|].
    pose proof (option_erase_spec sim sim_target 101 sim_stuck) as Hthm.
    cbv zeta in Hthm.
    destruct Hthm as (_ & _ & _ & _ & _ & _ & Hfalse & _).
    rewrite (Hfalse 100%nat); [reflexivity|lia| |]; vm_compute; reflexivity.
Defined.
